(** * Verification of [vector_store/insert_data.py]

    The script provisions a Milvus collection ([create_collection]) and then
    feeds a Flickr dataset into it one image at a time ([insert_data]);
    [main] glues both behind an argparse command line.

    The Python code is embedded shallowly.  Everything the script talks to
    (the Milvus server behind [MilvusClient], PIL, the feature extractor, the
    dataset readers, the constants of [defaults.py]) is a parameter; the
    script's own control flow is transcribed statement by statement into a
    small monad that threads the remote store, records every outgoing call
    and propagates Python exceptions. *)

From Stdlib Require Import ZArith List Bool Lia.
From stdpp Require Import base strings list gmap.

Local Open Scope string_scope.
Local Open Scope list_scope.
Local Open Scope Z_scope.

(** ** Exceptions

    The script never catches anything, so an exception raised anywhere ends
    the process. *)

Inductive exn : Type :=
| SystemExit (code : Z)            (* argparse: [parser.error] calls [sys.exit(2)] *)
| ValueError (msg : string)        (* raised by [main] itself *)
| MilvusException (msg : string)   (* raised inside a pymilvus call *)
| OSError (msg : string)           (* raised by [Image.open] or a dataset reader *)
| RuntimeError (msg : string).     (* raised by the feature extractor *)

(** Exit status of the interpreter when [e] reaches the top level. *)
Definition exit_status (e : exn) : Z :=
  match e with
  | SystemExit code => code
  | _ => 1
  end.

(** ** Python dictionaries

    A dict keeps its keys in insertion order; storing under a key that is
    already there replaces the value and keeps the key's position. *)

Module PyDict.
Section Dict.
Context {V : Type}.

Definition t : Type := list (string * V).

Fixpoint set (k : string) (v : V) (d : t) : t :=
  match d with
  | [] => [(k, v)]
  | (k', v') :: d' =>
      if String.eqb k k' then (k', v) :: d' else (k', v') :: set k v d'
  end.

Fixpoint get (k : string) (d : t) : option V :=
  match d with
  | [] => None
  | (k', v') :: d' => if String.eqb k k' then Some v' else get k d'
  end.

Definition keys (d : t) : list string := map fst d.

(** A dict display [{k1: v1, ..., kn: vn}] stores the pairs left to right. *)
Definition display (items : list (string * V)) : t :=
  fold_left (fun d kv => set (fst kv) (snd kv) d) items [].

End Dict.
Arguments t : clear implicits.
End PyDict.

(** ** Data the script handles *)

(** What the loop reads off a dataset element. *)
Record ImageObject : Type := {
  image_path : string;
  best_caption : string
}.

(** A field of the inserted row: a string or the embedding. *)
Inductive value (Embedding : Type) : Type :=
| VStr (s : string)
| VEmb (e : Embedding).
Arguments VStr {Embedding} s.
Arguments VEmb {Embedding} e.

(** Keyword arguments of [client.create_collection]. *)
Record create_kwargs : Type := {
  kw_collection_name : string;
  kw_vector_field_name : string;
  kw_dimension : Z;
  kw_auto_id : bool;
  kw_enable_dynamic_field : bool;
  kw_metric_type : string
}.

(** The argparse namespace.  [data_type] has no default and is not required,
    so it is [None] when the option is left out. *)
Record Namespace : Type := {
  data_path : string;
  data_type : option string;
  uri : string;
  collection_name : string;
  db_name : string;
  dimension : Z;
  metric_type : string;
  delete_existing_collection : bool
}.

(** What the user typed for each declared option ([None]: option absent).
    The text given to [--dimension] is taken after its [int] conversion. *)
Record CommandLine : Type := {
  opt_data_path : option string;
  opt_data_type : option string;
  opt_uri : option string;
  opt_collection_name : option string;
  opt_db_name : option string;
  opt_dimension : option Z;
  opt_metric_type : option string;
  opt_delete_existing_collection : bool
}.

(** The constants imported by [from .defaults import *]. *)
Record Defaults : Type := {
  MILVUS_URI : string;
  MILVUS_COLLECTION_NAME : string;
  MILVUS_DB_NAME : string;
  VECTOR_FIELD_DIM : Z;
  DEFAULT_METRIC : string;
  DEFAULT_VECTOR_FIELD_NAME : string
}.

(** Argument of a [%]-formatted log message. *)
Inductive logarg : Type :=
| ArgStr (s : string)
| ArgInt (n : Z)
| ArgNone.

Section Script.

Context {Image Embedding Store : Type}.

Abbreviation row := (PyDict.t (value Embedding)).

(** ** Collaborators *)

(** The interface [MultimodalFeatureExtractor]. *)
Class MultimodalFeatureExtractor : Type := {
  get_image_features : Image -> exn + Embedding
}.

(** A connected [MilvusClient]: each method acts on the remote store and
    either answers or raises. *)
Record MilvusClient : Type := {
  client_list_collections : Store -> (exn + list string) * Store;
  client_drop_collection : string -> Store -> (exn + unit) * Store;
  client_create_collection : create_kwargs -> Store -> (exn + unit) * Store;
  (* the answer is [res["insert_count"]] *)
  client_insert : string -> list row -> Store -> (exn + Z) * Store
}.

(** The rest of the world: constructors and PIL. *)
Record Host : Type := {
  MilvusClient_new : string -> string -> Store -> (exn + MilvusClient) * Store;
  JinaCLIPFeatureExtractor_new : exn + MultimodalFeatureExtractor;
  FlickrDataset_new : string -> exn + list ImageObject;
  Flickr30kDataset_new : string -> exn + list ImageObject;
  Image_open : string -> exn + Image
}.

(** ** Calls leaving the script, in the order they are made *)

Inductive call : Type :=
| Call_MilvusClient (uri db_name : string)
| Call_list_collections
| Call_drop_collection (name : string)
| Call_create_collection (kw : create_kwargs)
| Call_insert (name : string) (data : list row)
| Call_Image_open (path : string)
| Call_get_image_features (image : Image)
| Call_JinaCLIPFeatureExtractor
| Call_Dataset (kind root_path : string)
| Call_logger_warning (fmt : string) (arg : logarg)
| Call_logger_info (fmt : string) (arg : logarg).

(** Calls that reach the vector store. *)
Definition is_store_call (c : call) : bool :=
  match c with
  | Call_MilvusClient _ _ | Call_list_collections | Call_drop_collection _
  | Call_create_collection _ | Call_insert _ _ => true
  | _ => false
  end.

Definition is_insert_call (c : call) : bool :=
  match c with Call_insert _ _ => true | _ => false end.

Definition is_extractor_call (c : call) : bool :=
  match c with Call_get_image_features _ => true | _ => false end.

Definition is_open_call (c : call) : bool :=
  match c with Call_Image_open _ => true | _ => false end.

Definition is_drop_call (c : call) : bool :=
  match c with Call_drop_collection _ => true | _ => false end.

Definition is_create_call (c : call) : bool :=
  match c with Call_create_collection _ => true | _ => false end.

Definition count_calls (p : call -> bool) (cs : list call) : nat :=
  length (List.filter p cs).

(** The loop keeps no counter of the items it went through; an item is
    attempted as soon as its iteration starts, that is, with its
    [Image.open] call. *)
Definition attempted_count (cs : list call) : Z :=
  Z.of_nat (count_calls is_open_call cs).

(** The count reported by the closing [logger.info] of [insert_data]. *)
Fixpoint logged_inserted_count (cs : list call) : option Z :=
  match cs with
  | [] => None
  | c :: cs' =>
      match logged_inserted_count cs' with
      | Some n => Some n
      | None =>
          match c with
          | Call_logger_info "Inserted %d images into Milvus" (ArgInt n) => Some n
          | _ => None
          end
      end
  end.

(** [create_collection] returns [None] on each of its three paths; which
    path was taken shows in the store calls it made. *)
Inductive Outcome : Type := Created | Skipped | Replaced.

Definition provisioning_outcome (cs : list call) : option Outcome :=
  match List.filter is_store_call cs with
  | [Call_list_collections] => Some Skipped
  | [Call_list_collections; Call_create_collection _] => Some Created
  | [Call_list_collections; Call_drop_collection _; Call_create_collection _] =>
      Some Replaced
  | _ => None
  end.

(** ** The monad of the script

    A computation starts from a store and yields the calls it made, the
    store it left behind and its value or the exception that stopped it. *)

Definition M (A : Type) : Type := Store -> list call * Store * (exn + A).

Definition ret {A} (a : A) : M A := fun s => ([], s, inr a).

Definition raise {A} (e : exn) : M A := fun s => ([], s, inl e).

Definition bind {A B} (m : M A) (f : A -> M B) : M B :=
  fun s =>
    match m s with
    | (cs, s1, inl e) => (cs, s1, inl e)
    | (cs, s1, inr a) =>
        match f a s1 with
        | (cs', s2, r) => ((cs ++ cs')%list, s2, r)
        end
    end.

(** A call answered by the remote store. *)
Definition remote {A} (c : call) (op : Store -> (exn + A) * Store) : M A :=
  fun s => match op s with (r, s') => ([c], s', r) end.

(** A call answered locally. *)
Definition local {A} (c : call) (r : exn + A) : M A :=
  fun s => ([c], s, r).

Definition trace {A} (r : list call * Store * (exn + A)) : list call := fst (fst r).
Definition final_store {A} (r : list call * Store * (exn + A)) : Store := snd (fst r).
Definition result {A} (r : list call * Store * (exn + A)) : exn + A := snd r.

End Script.

Arguments MultimodalFeatureExtractor : clear implicits.
Arguments MilvusClient : clear implicits.
Arguments Host : clear implicits.
Arguments call : clear implicits.
Arguments M : clear implicits.

Notation "'do' x <- m ; k" := (bind m (fun x => k))
  (at level 10, x name, m at level 100, k at level 200).
Notation "'run' m ; k" := (bind m (fun _ => k))
  (at level 10, m at level 100, k at level 200).

(** ** The script *)

Section Program.

Context {Image Embedding Store : Type}.
Variable defaults : Defaults.
Variable host : Host Image Embedding Store.

Abbreviation Script := (M Image Embedding Store).
Abbreviation Client := (MilvusClient Embedding Store).
Abbreviation Extractor := (MultimodalFeatureExtractor Image Embedding).

(** [x in xs] on a Python list of strings. *)
Definition py_in (x : string) (xs : list string) : bool :=
  existsb (String.eqb x) xs.

Definition data_type_choices : list string := ["flickr8k"; "flickr30k"].

Definition from_option {A} (o : option A) (d : A) : A :=
  match o with Some a => a | None => d end.

(** [parse_args]: [--data_path] is required, [--data_type] is checked
    against its choices when given, the other options fall back to their
    defaults.  A usage error leaves through [sys.exit(2)]. *)
Definition parse_args (cmd : CommandLine) : Script Namespace :=
  match opt_data_path cmd with
  | None => raise (SystemExit 2)
  | Some path =>
      let bad_choice :=
        match opt_data_type cmd with
        | Some t => negb (py_in t data_type_choices)
        | None => false
        end in
      if bad_choice then raise (SystemExit 2)
      else ret {|
        data_path := path;
        data_type := opt_data_type cmd;
        uri := from_option (opt_uri cmd) (MILVUS_URI defaults);
        collection_name :=
          from_option (opt_collection_name cmd) (MILVUS_COLLECTION_NAME defaults);
        db_name := from_option (opt_db_name cmd) (MILVUS_DB_NAME defaults);
        dimension := from_option (opt_dimension cmd) (VECTOR_FIELD_DIM defaults);
        metric_type := from_option (opt_metric_type cmd) (DEFAULT_METRIC defaults);
        delete_existing_collection := opt_delete_existing_collection cmd
      |}
  end.

Definition skip_warning : string :=
  "Inserting data into an existing collection %s, run the script with the flag --delete_existing_collection for a fresh collection with the same name (destroying the existing one).".

(** The keyword arguments of lines 76-83. *)
Definition kwargs (collection_name vector_field_name : string) (dimension : Z)
    (metric_type : string) : create_kwargs := {|
  kw_collection_name := collection_name;
  kw_vector_field_name := vector_field_name;
  kw_dimension := dimension;
  kw_auto_id := true;
  kw_enable_dynamic_field := true;
  kw_metric_type := metric_type
|}.

(** [create_collection] (lines 47-83). *)
Definition create_collection (client : Client)
    (collection_name vector_field_name : string) (dimension : Z)
    (metric_type : string) (delete_existing_collection : bool) : Script unit :=
  let kw := kwargs collection_name vector_field_name dimension metric_type in
  let create :=
    remote (Call_create_collection kw) (client_create_collection client kw) in
  do names <- remote Call_list_collections (client_list_collections client);
  if py_in collection_name names then
    if negb delete_existing_collection then
      run local (Call_logger_warning skip_warning (ArgStr collection_name)) (inr tt);
      ret tt
    else
      run remote (Call_drop_collection collection_name)
            (client_drop_collection client collection_name);
      run local (Call_logger_info "Collection %s dropped." (ArgStr collection_name))
            (inr tt);
      create
  else create.

(** The dict display of lines 107-111. *)
Definition row_of (vector_field_name : string) (image_object : ImageObject)
    (caption : string) (embeddings : Embedding) : PyDict.t (value Embedding) :=
  PyDict.display
    [("filename", VStr (image_path image_object));
     ("caption", VStr caption);
     (vector_field_name, VEmb embeddings)].

(** One pass through the body of the [for] loop (lines 95-115), from the
    current [inserted_count] to the next. *)
Definition insert_data_body (client : Client) (collection_name vector_field_name : string)
    (feature_extractor : Extractor) (inserted_count : Z) (image_object : ImageObject)
  : Script Z :=
  do image <- local (Call_Image_open (image_path image_object))
                (Image_open host (image_path image_object));
  do embeddings <- local (Call_get_image_features image) (get_image_features image);
  let caption := best_caption image_object in
  do res <- remote
      (Call_insert collection_name
         [row_of vector_field_name image_object caption embeddings])
      (client_insert client collection_name
         [row_of vector_field_name image_object caption embeddings]);
  if 0 <? res then ret (inserted_count + res) else ret inserted_count.

(** The [for] loop over the dataset, in its order. *)
Fixpoint insert_data_loop (client : Client) (collection_name vector_field_name : string)
    (feature_extractor : Extractor) (dataset : list ImageObject) (inserted_count : Z)
  : Script Z :=
  match dataset with
  | [] => ret inserted_count
  | image_object :: rest =>
      do c <- insert_data_body client collection_name vector_field_name
                feature_extractor inserted_count image_object;
      insert_data_loop client collection_name vector_field_name
        feature_extractor rest c
  end.

(** Every item of [dataset] loads, is embedded and is acknowledged with
    count 1 by the store, the store being [s] when the loop starts. *)
Fixpoint all_succeed (client : Client) (collection_name vector_field_name : string)
    (feature_extractor : Extractor) (dataset : list ImageObject) (s : Store) : Prop :=
  match dataset with
  | [] => True
  | image_object :: rest =>
      exists image embeddings s',
        Image_open host (image_path image_object) = inr image /\
        get_image_features image = inr embeddings /\
        client_insert client collection_name
          [row_of vector_field_name image_object (best_caption image_object)
             embeddings] s = (inr 1, s') /\
        all_succeed client collection_name vector_field_name feature_extractor
          rest s'
  end.

(** [image_object] cannot be loaded or cannot be embedded: the step raises [e]. *)
Definition fails_before_insert (feature_extractor : Extractor)
    (image_object : ImageObject) (e : exn) : Prop :=
  Image_open host (image_path image_object) = inl e \/
  exists image,
    Image_open host (image_path image_object) = inr image /\
    get_image_features image = inl e.

(** [insert_data] (lines 86-116): the counter starts at 0 and is logged
    once the loop is over.  [track] only draws a progress bar around the
    iteration and hands the items over in the dataset's order. *)
Definition insert_data (dataset : list ImageObject) (client : Client)
    (collection_name vector_field_name : string) (feature_extractor : Extractor)
  : Script unit :=
  do inserted_count <- insert_data_loop client collection_name vector_field_name
                         feature_extractor dataset 0;
  local (Call_logger_info "Inserted %d images into Milvus" (ArgInt inserted_count))
    (inr tt).

(** [main] (lines 119-160). *)
Definition main (cmd : CommandLine) : Script unit :=
  do args <- parse_args cmd;
  run local (Call_logger_info "Running insert operation with arguments: %s" ArgNone)
        (inr tt);
  do client <- remote (Call_MilvusClient (uri args) (db_name args))
                 (MilvusClient_new host (uri args) (db_name args));
  do extractor <- local Call_JinaCLIPFeatureExtractor
                    (JinaCLIPFeatureExtractor_new host);
  run create_collection client (collection_name args)
        (DEFAULT_VECTOR_FIELD_NAME defaults) (dimension args) (metric_type args)
        (delete_existing_collection args);
  match data_type args with
  | Some "flickr8k" =>
      do dataset <- local (Call_Dataset "flickr8k" (data_path args))
                      (FlickrDataset_new host (data_path args));
      insert_data dataset client (collection_name args)
        (DEFAULT_VECTOR_FIELD_NAME defaults) extractor
  | Some "flickr30k" =>
      do dataset <- local (Call_Dataset "flickr30k" (data_path args))
                      (Flickr30kDataset_new host (data_path args));
      insert_data dataset client (collection_name args)
        (DEFAULT_VECTOR_FIELD_NAME defaults) extractor
  | _ => raise (ValueError "Invalid dataset type")
  end.

End Program.

(** ** A reference server

    A bookkeeping model of the Milvus side, used to read claims about the
    resulting collection: a store maps each collection name to the keyword
    arguments it was created with and to the rows it holds.  Embeddings are
    sequences of integers standing for the vector components. *)

Module RefServer.

Abbreviation Embedding := (list Z).

Record Collection : Type := {
  schema : create_kwargs;
  rows : list (PyDict.t (value Embedding))
}.

Abbreviation Store := (gmap string Collection).

Definition list_collections (st : Store) : (exn + list string) * Store :=
  (inr (map fst (map_to_list st)), st).

Definition drop_collection (name : string) (st : Store) : (exn + unit) * Store :=
  (inr tt, delete name st).

(** The server refuses a vector field without a positive dimension and a
    name that is taken. *)
Definition create_collection (kw : create_kwargs) (st : Store)
  : (exn + unit) * Store :=
  if kw_dimension kw <=? 0 then (inl (MilvusException "invalid dimension"), st)
  else
    match st !! kw_collection_name kw with
    | Some _ => (inl (MilvusException "collection already exists"), st)
    | None => (inr tt, <[kw_collection_name kw := {| schema := kw; rows := [] |}]> st)
    end.

(** A row is accepted when its vector field holds an embedding of the
    collection's dimension. *)
Definition row_fits (kw : create_kwargs) (r : PyDict.t (value Embedding)) : bool :=
  match PyDict.get (kw_vector_field_name kw) r with
  | Some (VEmb e) => Z.of_nat (length e) =? kw_dimension kw
  | _ => false
  end.

Definition insert (name : string) (data : list (PyDict.t (value Embedding)))
    (st : Store) : (exn + Z) * Store :=
  match st !! name with
  | None => (inl (MilvusException "collection not found"), st)
  | Some c =>
      if forallb (row_fits (schema c)) data then
        (inr (Z.of_nat (length data)),
         <[name := {| schema := schema c; rows := rows c ++ data |}]> st)
      else (inl (MilvusException "vector dimension mismatch"), st)
  end.

Definition client : MilvusClient Embedding Store := {|
  client_list_collections := list_collections;
  client_drop_collection := drop_collection;
  client_create_collection := create_collection;
  client_insert := insert
|}.

End RefServer.

(** ** A scripted server

    The store is the list of answers still to be given to [insert]; it lets
    a run meet any acknowledged count. *)

Module ScriptedServer.

Abbreviation Embedding := (list Z).
Abbreviation Store := (list Z).

Definition insert (name : string) (data : list (PyDict.t (value Embedding)))
    (st : Store) : (exn + Z) * Store :=
  match st with
  | [] => (inl (MilvusException "connection lost"), [])
  | ack :: st' => (inr ack, st')
  end.

Definition client : MilvusClient Embedding Store := {|
  client_list_collections := fun st => (inr [], st);
  client_drop_collection := fun _ st => (inr tt, st);
  client_create_collection := fun _ st => (inr tt, st);
  client_insert := insert
|}.

End ScriptedServer.

(** ** A small installation to run the script on

    Images are identified with their paths.  One file of the dataset
    directory is missing and one cannot be embedded. *)

Module Fixture.

Abbreviation Image := string.

Definition defaults : Defaults := {|
  MILVUS_URI := "http://localhost:19530";
  MILVUS_COLLECTION_NAME := "images";
  MILVUS_DB_NAME := "default";
  VECTOR_FIELD_DIM := 4;
  DEFAULT_METRIC := "COSINE";
  DEFAULT_VECTOR_FIELD_NAME := "vector"
|}.

Definition extractor : MultimodalFeatureExtractor Image (list Z) := {|
  get_image_features := fun image =>
    if String.eqb image "odd.jpg" then inl (RuntimeError "unsupported image")
    else inr [1; 0; 0; 0]
|}.

Definition open_file (path : string) : exn + Image :=
  if String.eqb path "missing.jpg" then inl (OSError "No such file or directory")
  else inr path.

Definition dog : ImageObject := {| image_path := "dog.jpg"; best_caption := "a dog" |}.
Definition cat : ImageObject := {| image_path := "cat.jpg"; best_caption := "a cat" |}.
Definition missing : ImageObject :=
  {| image_path := "missing.jpg"; best_caption := "a bird" |}.
Definition odd : ImageObject := {| image_path := "odd.jpg"; best_caption := "a fish" |}.

Definition host {Store : Type} (client : MilvusClient (list Z) Store)
  : Host Image (list Z) Store := {|
  MilvusClient_new := fun _ _ st => (inr client, st);
  JinaCLIPFeatureExtractor_new := inr extractor;
  FlickrDataset_new := fun _ => inr [dog; cat];
  Flickr30kDataset_new := fun _ => inr [dog; cat];
  Image_open := open_file
|}.

(** A store that already holds the default collection, with another
    dimension and one row. *)
Definition old_schema : create_kwargs := {|
  kw_collection_name := "images";
  kw_vector_field_name := "vector";
  kw_dimension := 8;
  kw_auto_id := true;
  kw_enable_dynamic_field := true;
  kw_metric_type := "L2"
|}.

Definition old_row : PyDict.t (value (list Z)) :=
  [("filename", VStr "old.jpg"); ("caption", VStr "old");
   ("vector", VEmb [0; 0; 0; 0; 0; 0; 0; 1])].

Definition populated : gmap string RefServer.Collection :=
  {[ "images" := {| RefServer.schema := old_schema; RefServer.rows := [old_row] |} ]}.

(** Same, with the dimension the extractor produces. *)
Definition compatible : gmap string RefServer.Collection :=
  {[ "images" := {|
       RefServer.schema := {|
         kw_collection_name := "images";
         kw_vector_field_name := "vector";
         kw_dimension := 4;
         kw_auto_id := true;
         kw_enable_dynamic_field := true;
         kw_metric_type := "COSINE"
       |};
       RefServer.rows := [] |} ]}.

Definition cmdline (type : option string) (replace : bool) : CommandLine := {|
  opt_data_path := Some "/data/flickr";
  opt_data_type := type;
  opt_uri := None;
  opt_collection_name := None;
  opt_db_name := None;
  opt_dimension := None;
  opt_metric_type := None;
  opt_delete_existing_collection := replace
|}.

Definition ref_host := host RefServer.client.
Definition scripted_host := host ScriptedServer.client.

(** The loop over a dataset whose first file is missing. *)
Definition run_with_missing_file :=
  insert_data_loop ref_host RefServer.client "images" "vector" extractor
    [missing; dog] 0 compatible.

Definition empty_store : gmap string RefServer.Collection := ∅.

(** Provisioning a fresh name with dimension 0. *)
Definition provision_dimension_zero :=
  create_collection (Image := Image) RefServer.client "images" "vector" 0 "COSINE"
    false empty_store.

(** The script on a store that already has the collection, replacement not
    asked. *)
Definition run_on_existing :=
  main defaults ref_host (cmdline (Some "flickr8k") false) compatible.

(** The script started without [--data_type], replacement asked. *)
Definition run_without_data_type :=
  main defaults ref_host (cmdline None true) populated.

End Fixture.


(** ** Further observations on runs *)

Section Observations.

Context {Image Embedding Store : Type}.
Variable host : Host Image Embedding Store.

(** The names passed to [drop_collection], in order. *)
Definition dropped (cs : list (call Image Embedding)) : list string :=
  flat_map (fun c => match c with Call_drop_collection name => [name] | _ => [] end)
    cs.

(** The keyword arguments passed to [client.create_collection], in order. *)
Definition created (cs : list (call Image Embedding)) : list create_kwargs :=
  flat_map (fun c => match c with Call_create_collection kw => [kw] | _ => [] end)
    cs.

(** The rows passed to [insert], call after call. *)
Definition inserted_rows (cs : list (call Image Embedding))
  : list (PyDict.t (value Embedding)) :=
  flat_map (fun c => match c with Call_insert _ data => data | _ => [] end) cs.

(** What the insertion loop may do: open an image, ask for its features,
    log, and insert exactly one row into [name]. *)
Definition is_ingestion_call (name : string) (c : call Image Embedding) : bool :=
  match c with
  | Call_Image_open _ | Call_get_image_features _ | Call_logger_info _ _ => true
  | Call_insert n data => String.eqb n name && Nat.eqb (length data) 1
  | _ => false
  end.

Definition is_dataset_call (c : call Image Embedding) : bool :=
  match c with Call_Dataset _ _ => true | _ => false end.

Definition is_list_call (c : call Image Embedding) : bool :=
  match c with Call_list_collections => true | _ => false end.

(** Every item of [dataset] loads and is embedded, and the store answers
    the inserts with the counts [acks], one per item, the store being [s]
    when the loop starts. *)
Fixpoint acknowledged (client : MilvusClient Embedding Store)
    (collection_name vector_field_name : string)
    (feature_extractor : MultimodalFeatureExtractor Image Embedding)
    (dataset : list ImageObject) (acks : list Z) (s : Store) : Prop :=
  match dataset, acks with
  | [], [] => True
  | image_object :: rest, ack :: acks' =>
      exists image embeddings s',
        Image_open host (image_path image_object) = inr image /\
        get_image_features image = inr embeddings /\
        client_insert client collection_name
          [row_of vector_field_name image_object (best_caption image_object)
             embeddings] s = (inr ack, s') /\
        acknowledged client collection_name vector_field_name feature_extractor
          rest acks' s'
  | _, _ => False
  end.

(** The counts above zero, added up. *)
Definition sum_positive (acks : list Z) : Z :=
  fold_right (fun ack total => (if 0 <? ack then ack else 0) + total) 0 acks.

(** Every item of [dataset] loads and is embedded into the matching entry of
    [embeddings], whose length is [dim]. *)
Fixpoint embedded_as (feature_extractor : MultimodalFeatureExtractor Image (list Z))
    (open : string -> exn + Image) (dim : Z)
    (dataset : list ImageObject) (embeddings : list (list Z)) : Prop :=
  match dataset, embeddings with
  | [], [] => True
  | image_object :: rest, e :: es =>
      (exists image,
          open (image_path image_object) = inr image /\
          get_image_features image = inr e) /\
      Z.of_nat (length e) = dim /\
      embedded_as feature_extractor open dim rest es
  | _, _ => False
  end.

(** The rows the loop builds for [dataset] from these embeddings. *)
Fixpoint rows_of (vector_field_name : string) (dataset : list ImageObject)
    (embeddings : list (list Z)) : list (PyDict.t (value (list Z))) :=
  match dataset, embeddings with
  | image_object :: rest, e :: es =>
      row_of vector_field_name image_object (best_caption image_object) e
        :: rows_of vector_field_name rest es
  | _, _ => []
  end.

End Observations.

(** [st'] has the collections of [st] and no other, each with the schema it
    had and with its rows followed by further rows. *)
Definition only_appends (st st' : gmap string RefServer.Collection) : Prop :=
  forall k,
    match st !! k with
    | Some c =>
        exists extra,
          st' !! k =
            Some {| RefServer.schema := RefServer.schema c;
                    RefServer.rows := RefServer.rows c ++ extra |}
    | None => st' !! k = None
    end.

(** ** Servers and hosts that fail *)

Module Faults.

(** A server on which the connected account may only read: the store is the
    list of collection names. *)
Module ReadOnlyServer.

Abbreviation Store := (list string).

Definition client : MilvusClient (list Z) Store := {|
  client_list_collections := fun st => (inr st, st);
  client_drop_collection := fun _ st => (inl (MilvusException "permission denied"), st);
  client_create_collection :=
    fun _ st => (inl (MilvusException "permission denied"), st);
  client_insert := fun _ _ st => (inl (MilvusException "permission denied"), st)
|}.

End ReadOnlyServer.

(** The server cannot be reached. *)
Definition offline_host : Host string (list Z) (gmap string RefServer.Collection) := {|
  MilvusClient_new := fun _ _ st => (inl (MilvusException "connection refused"), st);
  JinaCLIPFeatureExtractor_new := inr Fixture.extractor;
  FlickrDataset_new := fun _ => inr [Fixture.dog; Fixture.cat];
  Flickr30kDataset_new := fun _ => inr [Fixture.dog; Fixture.cat];
  Image_open := Fixture.open_file
|}.

(** The dataset directory does not exist. *)
Definition no_dataset_host : Host string (list Z) (gmap string RefServer.Collection) := {|
  MilvusClient_new := fun _ _ st => (inr RefServer.client, st);
  JinaCLIPFeatureExtractor_new := inr Fixture.extractor;
  FlickrDataset_new := fun _ => inl (OSError "No such file or directory");
  Flickr30kDataset_new := fun _ => inl (OSError "No such file or directory");
  Image_open := Fixture.open_file
|}.

(** A command line asking for dimension [dim]. *)
Definition cmdline_with_dimension (type : option string) (dim : Z) : CommandLine := {|
  opt_data_path := Some "/data/flickr";
  opt_data_type := type;
  opt_uri := None;
  opt_collection_name := None;
  opt_db_name := None;
  opt_dimension := Some dim;
  opt_metric_type := None;
  opt_delete_existing_collection := false
|}.


End Faults.

(** * Properties *)

(** ** The monad *)

Section MonadFacts.

Context {Image Embedding Store : Type}.
Implicit Types s : Store.

Lemma bind_ret_l {A B} (a : A) (f : A -> M Image Embedding Store B) s :
  bind (ret a) f s = f a s.
Proof. unfold bind, ret. destruct (f a s) as [[cs s'] r]. reflexivity. Qed.

Lemma bind_inr {A B} (m : M Image Embedding Store A) (f : A -> M Image Embedding Store B)
    s cs s1 a :
  m s = (cs, s1, inr a) ->
  bind m f s = ((cs ++ trace (f a s1))%list, final_store (f a s1), result (f a s1)).
Proof.
  intros Hm. unfold bind. rewrite Hm.
  destruct (f a s1) as [[cs' s2] r]. reflexivity.
Qed.

Lemma bind_inl {A B} (m : M Image Embedding Store A) (f : A -> M Image Embedding Store B)
    s cs s1 e :
  m s = (cs, s1, inl e) -> bind m f s = (cs, s1, inl e).
Proof. intros Hm. unfold bind. rewrite Hm. reflexivity. Qed.

Lemma bind_assoc {A B C} (m : M Image Embedding Store A)
    (f : A -> M Image Embedding Store B) (g : B -> M Image Embedding Store C) s :
  bind (bind m f) g s = bind m (fun a => bind (f a) g) s.
Proof.
  unfold bind. destruct (m s) as [[cs s1] [e | a]]; [reflexivity |].
  destruct (f a s1) as [[cs' s2] [e | b]]; [reflexivity |].
  destruct (g b s2) as [[cs'' s3] r]. rewrite app_assoc. reflexivity.
Qed.

Lemma bind_ext {A B} (m : M Image Embedding Store A)
    (f g : A -> M Image Embedding Store B) s :
  (forall a s', f a s' = g a s') -> bind m f s = bind m g s.
Proof.
  intros Hfg. unfold bind. destruct (m s) as [[cs s1] [e | a]]; [reflexivity |].
  rewrite Hfg. reflexivity.
Qed.

Lemma run_eta {A} (r : list (call Image Embedding) * Store * (exn + A)) :
  r = (trace r, final_store r, result r).
Proof. destruct r as [[cs s] x]. reflexivity. Qed.

Lemma count_calls_app (p : call Image Embedding -> bool) cs cs' :
  count_calls p (cs ++ cs') = (count_calls p cs + count_calls p cs')%nat.
Proof. unfold count_calls. rewrite List.filter_app, length_app. reflexivity. Qed.

End MonadFacts.

(** ** The insertion loop *)

Section LoopFacts.

Context {Image Embedding Store : Type}.
Variable host : Host Image Embedding Store.
Variable client : MilvusClient Embedding Store.
Variables collection_name vector_field_name : string.
Variable feature_extractor : MultimodalFeatureExtractor Image Embedding.

Abbreviation body := (insert_data_body host client collection_name
                    vector_field_name feature_extractor).
Abbreviation loop := (insert_data_loop host client collection_name
                    vector_field_name feature_extractor).
Abbreviation the_row x embeddings :=
  (row_of vector_field_name x (best_caption x) embeddings).

Lemma body_success c x s image embeddings ack s' :
  Image_open host (image_path x) = inr image ->
  get_image_features image = inr embeddings ->
  client_insert client collection_name [the_row x embeddings] s = (inr ack, s') ->
  body c x s =
    ([Call_Image_open (image_path x); Call_get_image_features image;
      Call_insert collection_name [the_row x embeddings]],
     s', inr (if 0 <? ack then c + ack else c)).
Proof.
  intros Hopen Hfeat Hins.
  unfold insert_data_body, bind, local, remote, ret.
  rewrite Hopen, Hfeat, Hins. destruct (0 <? ack); reflexivity.
Qed.

Lemma body_insert_raises c x s image embeddings e s' :
  Image_open host (image_path x) = inr image ->
  get_image_features image = inr embeddings ->
  client_insert client collection_name [the_row x embeddings] s = (inl e, s') ->
  body c x s =
    ([Call_Image_open (image_path x); Call_get_image_features image;
      Call_insert collection_name [the_row x embeddings]],
     s', inl e).
Proof.
  intros Hopen Hfeat Hins.
  unfold insert_data_body, bind, local, remote, ret.
  rewrite Hopen, Hfeat, Hins. reflexivity.
Qed.

Lemma body_open_raises c x s e :
  Image_open host (image_path x) = inl e ->
  body c x s = ([Call_Image_open (image_path x)], s, inl e).
Proof.
  intros Hopen. unfold insert_data_body, bind, local. rewrite Hopen. reflexivity.
Qed.

Lemma body_extractor_raises c x s image e :
  Image_open host (image_path x) = inr image ->
  get_image_features image = inl e ->
  body c x s =
    ([Call_Image_open (image_path x); Call_get_image_features image], s, inl e).
Proof.
  intros Hopen Hfeat. unfold insert_data_body, bind, local.
  rewrite Hopen, Hfeat. reflexivity.
Qed.

(** A step that returns never lowers the counter. *)
Lemma body_monotone c x s c' :
  result (body c x s) = inr c' -> c <= c'.
Proof.
  unfold insert_data_body, bind, local, remote, ret.
  destruct (Image_open host (image_path x)) as [e | image]; [discriminate |].
  destruct (get_image_features image) as [e | embeddings]; [discriminate |].
  destruct (client_insert client collection_name _ s) as [[e | ack] s'];
    [discriminate |].
  destruct (0 <? ack) eqn:Hack; cbn; intros [= <-]; [| lia].
  apply Z.ltb_lt in Hack. lia.
Qed.

Lemma loop_app pre post c s :
  loop (pre ++ post) c s = bind (loop pre c) (fun c' => loop post c') s.
Proof.
  revert c s. induction pre as [| x pre IH]; intros c s; cbn [app insert_data_loop].
  - symmetry. apply bind_ret_l.
  - rewrite bind_assoc. apply bind_ext. intros c1 s1. apply IH.
Qed.

Lemma loop_monotone ds c s c' :
  result (loop ds c s) = inr c' -> c <= c'.
Proof.
  revert c s. induction ds as [| x ds IH]; intros c s; cbn [insert_data_loop].
  - cbn. intros [= <-]. lia.
  - unfold bind.
    destruct (body c x s) as [[cs s1] [e | c1]] eqn:Hbody; [discriminate |].
    destruct (loop ds c1 s1) as [[cs' s2] r] eqn:Hloop. cbn. intros ->.
    assert (c <= c1) by (apply (body_monotone c x s); rewrite Hbody; reflexivity).
    assert (c1 <= c') by (apply (IH c1 s1); rewrite Hloop; reflexivity).
    lia.
Qed.

(** When every item succeeds the loop runs to its end; it opened, embedded
    and inserted once per item and added one per item to the counter. *)
Lemma loop_all_succeed ds c s :
  all_succeed host client collection_name vector_field_name feature_extractor ds s ->
  exists cs s',
    loop ds c s = (cs, s', inr (c + Z.of_nat (length ds))) /\
    count_calls is_open_call cs = length ds /\
    count_calls is_extractor_call cs = length ds /\
    count_calls is_insert_call cs = length ds.
Proof.
  revert c s. induction ds as [| x ds IH]; intros c s Hall.
  - exists [], s. cbn. rewrite Z.add_0_r. auto.
  - destruct Hall as (image & embeddings & s1 & Hopen & Hfeat & Hins & Hrest).
    destruct (IH (c + 1) s1 Hrest) as (cs & s2 & Hloop & Ho & He & Hi).
    eexists _, s2. cbn [insert_data_loop].
    erewrite bind_inr
      by (rewrite (body_success c x s image embeddings 1 s1) by assumption;
          reflexivity).
    change (if 0 <? 1 then c + 1 else c) with (c + 1).
    rewrite Hloop. cbn [trace final_store result fst snd].
    split; [f_equal; f_equal; cbn [length]; lia |].
    rewrite !count_calls_app, Ho, He, Hi. cbn. auto.
Qed.

Lemma logged_inserted_count_last (cs : list (call Image Embedding)) n :
  logged_inserted_count
    (cs ++ [Call_logger_info "Inserted %d images into Milvus" (ArgInt n)]) = Some n.
Proof.
  induction cs as [| c cs IH]; [reflexivity |].
  cbn [app logged_inserted_count]. rewrite IH. reflexivity.
Qed.

Lemma insert_data_unfold ds s :
  insert_data host ds client collection_name vector_field_name feature_extractor s =
  bind (loop ds 0)
    (fun n => local (Call_logger_info "Inserted %d images into Milvus" (ArgInt n))
                (inr tt)) s.
Proof. reflexivity. Qed.

(** C3. Count conservation: when every load, every extraction and every
    insert of a dataset of N items succeeds, each insert being acknowledged
    with count 1, the loop ends normally with [inserted_count] = N after
    having gone through N items (one [Image.open], hence one iteration, per
    item), and [insert_data] reports N in its closing log line. *)
Theorem count_conservation ds s :
  all_succeed host client collection_name vector_field_name feature_extractor ds s ->
  result (loop ds 0 s) = inr (Z.of_nat (length ds)) /\
  attempted_count (trace (loop ds 0 s)) = Z.of_nat (length ds) /\
  count_calls is_insert_call (trace (loop ds 0 s)) = length ds /\
  result (insert_data host ds client collection_name vector_field_name
            feature_extractor s) = inr tt /\
  logged_inserted_count
    (trace (insert_data host ds client collection_name vector_field_name
              feature_extractor s)) = Some (Z.of_nat (length ds)).
Proof.
  intros Hall.
  destruct (loop_all_succeed ds 0 s Hall) as (cs & s' & Hloop & Ho & _ & Hi).
  rewrite Z.add_0_l in Hloop.
  rewrite insert_data_unfold, (bind_inr _ _ _ _ _ _ Hloop), Hloop.
  unfold attempted_count. cbn [trace final_store result fst snd local].
  rewrite Ho, Hi, logged_inserted_count_last. auto.
Qed.

(** C2, as the code has it.  The loop has no handler: when an item cannot be
    loaded or embedded, the exception of the first such item ends the run at
    that item.  The items before it (all successful, acknowledged with 1)
    were inserted, the failing item was attempted and nothing was sent to
    the store for it, no later item is attempted, and [insert_data] leaves
    with the same exception without reporting a count. *)
Theorem first_failure_ends_run pre bad post e s :
  all_succeed host client collection_name vector_field_name feature_extractor pre s ->
  fails_before_insert host feature_extractor bad e ->
  result (loop (pre ++ bad :: post) 0 s) = inl e /\
  attempted_count (trace (loop (pre ++ bad :: post) 0 s)) =
    Z.of_nat (length pre) + 1 /\
  count_calls is_insert_call (trace (loop (pre ++ bad :: post) 0 s)) = length pre /\
  insert_data host (pre ++ bad :: post) client collection_name vector_field_name
    feature_extractor s =
  (trace (loop (pre ++ bad :: post) 0 s),
   final_store (loop (pre ++ bad :: post) 0 s), inl e).
Proof.
  intros Hall Hbad.
  destruct (loop_all_succeed pre 0 s Hall) as (cs & s' & Hloop & Ho & _ & Hi).
  assert (Hrun : exists cs',
             loop (pre ++ bad :: post) 0 s = ((cs ++ cs')%list, s', inl e) /\
             count_calls is_open_call cs' = 1%nat /\
             count_calls is_insert_call cs' = 0%nat).
  { rewrite loop_app, (bind_inr _ _ _ _ _ _ Hloop). cbn [insert_data_loop].
    destruct Hbad as [Hopen | (image & Hopen & Hfeat)].
    - eexists. erewrite bind_inl by (apply body_open_raises; eassumption).
      cbn. auto.
    - eexists. erewrite bind_inl by (eapply body_extractor_raises; eassumption).
      cbn. auto. }
  destruct Hrun as (cs' & Hrun & Ho' & Hi').
  rewrite insert_data_unfold, (bind_inl _ _ _ _ _ _ Hrun), Hrun.
  unfold attempted_count. cbn [trace final_store result fst snd].
  rewrite !count_calls_app, Ho, Hi, Ho', Hi'.
  repeat split; lia.
Qed.

(** C10. The counter starts at 0 and never goes down: whatever prefix of
    the dataset has been processed, the count [c] reached is at least 0;
    the next completed iteration yields a count at least [c]; an
    acknowledgment of zero or less leaves the count as it was, and a
    positive one is added to it. *)
Theorem inserted_count_never_decreases pre x s cs s1 c image embeddings ack s2 :
  loop pre 0 s = (cs, s1, inr c) ->
  Image_open host (image_path x) = inr image ->
  get_image_features image = inr embeddings ->
  client_insert client collection_name [the_row x embeddings] s1 = (inr ack, s2) ->
  result (loop [] 0 s) = inr 0 /\
  0 <= c /\
  exists c',
    result (loop (pre ++ [x]) 0 s) = inr c' /\
    c <= c' /\
    (ack <= 0 -> c' = c) /\
    (0 < ack -> c' = c + ack).
Proof.
  intros Hloop Hopen Hfeat Hins.
  split; [reflexivity |].
  split; [apply (loop_monotone pre 0 s); rewrite Hloop; reflexivity |].
  exists (if 0 <? ack then c + ack else c).
  rewrite loop_app, (bind_inr _ _ _ _ _ _ Hloop). cbn [insert_data_loop].
  erewrite bind_inr by (eapply body_success; eassumption).
  cbn [result snd ret].
  destruct (0 <? ack) eqn:Hack;
    [apply Z.ltb_lt in Hack | apply Z.ltb_ge in Hack];
    repeat split; intros; lia.
Qed.

(** C9. For every item the store receives one mapping, built by storing
    "filename", then "caption", then the vector field name.  With a vector
    field name of its own the row has these three keys in that order; when
    the name is "filename" (or "caption") the embedding takes the place of
    the path (or of the caption) and the row has two keys only. *)
Theorem row_keys c x s image embeddings :
  Image_open host (image_path x) = inr image ->
  get_image_features image = inr embeddings ->
  trace (body c x s) =
    [Call_Image_open (image_path x); Call_get_image_features image;
     Call_insert collection_name [the_row x embeddings]] /\
  the_row x embeddings =
    PyDict.set vector_field_name (VEmb embeddings)
      (PyDict.set "caption" (VStr (best_caption x))
         (PyDict.set "filename" (VStr (image_path x)) [])) /\
  the_row x embeddings =
    (if String.eqb vector_field_name "filename" then
       [("filename", VEmb embeddings); ("caption", VStr (best_caption x))]
     else if String.eqb vector_field_name "caption" then
       [("filename", VStr (image_path x)); ("caption", VEmb embeddings)]
     else
       [("filename", VStr (image_path x)); ("caption", VStr (best_caption x));
        (vector_field_name, VEmb embeddings)]) /\
  length (PyDict.keys (the_row x embeddings)) =
    (if String.eqb vector_field_name "filename"
        || String.eqb vector_field_name "caption"
     then 2%nat else 3%nat).
Proof.
  intros Hopen Hfeat. split; [| split; [reflexivity |]].
  - destruct (client_insert client collection_name [the_row x embeddings] s)
      as [[e | ack] s'] eqn:Hins.
    + erewrite body_insert_raises by eassumption. reflexivity.
    + erewrite body_success by eassumption. reflexivity.
  - unfold row_of, PyDict.display. cbn [fold_left fst snd PyDict.set].
    change (String.eqb "caption" "filename") with false. cbn iota.
    cbn [PyDict.set].
    destruct (String.eqb vector_field_name "filename");
      [split; reflexivity |].
    destruct (String.eqb vector_field_name "caption"); split; reflexivity.
Qed.

End LoopFacts.

(** ** Provisioning *)

Section ProvisionFacts.

Context {Image Embedding Store : Type}.
Variable client : MilvusClient Embedding Store.

Abbreviation provision := (create_collection (Image := Image) client).

Lemma py_in_true x xs : py_in x xs = true <-> In x xs.
Proof.
  unfold py_in. rewrite existsb_exists. split.
  - intros (y & Hy & Heq). apply String.eqb_eq in Heq. subst. assumption.
  - intros Hx. exists x. split; [assumption | apply String.eqb_refl].
Qed.

(** Name absent: one listing, then the create request, whatever the flag. *)
Lemma provision_absent name vfn dim metric del s names s1 :
  client_list_collections client s = (inr names, s1) ->
  py_in name names = false ->
  provision name vfn dim metric del s =
    ([Call_list_collections; Call_create_collection (kwargs name vfn dim metric)],
     snd (client_create_collection client (kwargs name vfn dim metric) s1),
     fst (client_create_collection client (kwargs name vfn dim metric) s1)).
Proof.
  intros Hlist Habsent. unfold create_collection, bind, remote.
  rewrite Hlist, Habsent.
  destruct (client_create_collection client _ s1) as [r s2]. reflexivity.
Qed.

(** Name present, no replacement asked: one listing and a warning. *)
Lemma provision_skip name vfn dim metric s names s1 :
  client_list_collections client s = (inr names, s1) ->
  py_in name names = true ->
  provision name vfn dim metric false s =
    ([Call_list_collections; Call_logger_warning skip_warning (ArgStr name)],
     s1, inr tt).
Proof.
  intros Hlist Hpresent. unfold create_collection, bind, remote, local, ret.
  rewrite Hlist, Hpresent. reflexivity.
Qed.

(** Name present, replacement asked: listing, drop, then the create request. *)
Lemma provision_replace name vfn dim metric s names s1 s2 :
  client_list_collections client s = (inr names, s1) ->
  py_in name names = true ->
  client_drop_collection client name s1 = (inr tt, s2) ->
  provision name vfn dim metric true s =
    ([Call_list_collections; Call_drop_collection name;
      Call_logger_info "Collection %s dropped." (ArgStr name);
      Call_create_collection (kwargs name vfn dim metric)],
     snd (client_create_collection client (kwargs name vfn dim metric) s2),
     fst (client_create_collection client (kwargs name vfn dim metric) s2)).
Proof.
  intros Hlist Hpresent Hdrop. unfold create_collection, bind, remote, local.
  rewrite Hlist, Hpresent. cbn [negb]. rewrite Hdrop.
  destruct (client_create_collection client _ s2) as [r s3]. reflexivity.
Qed.

(** The store is asked first, on every path. *)
Lemma provision_lists_first name vfn dim metric del s :
  exists rest,
    trace (provision name vfn dim metric del s) = Call_list_collections :: rest.
Proof.
  unfold create_collection, bind, remote, local, ret.
  destruct (client_list_collections client s) as [[e | names] s1];
    [eexists; reflexivity |].
  destruct (py_in name names); [destruct del; cbn [negb] |].
  - destruct (client_drop_collection client name s1) as [[e | []] s2];
      [eexists; reflexivity |].
    destruct (client_create_collection client _ s2) as [r s3].
    eexists; reflexivity.
  - eexists; reflexivity.
  - destruct (client_create_collection client _ s1) as [r s2].
    eexists; reflexivity.
Qed.

(** C8. When the name is not among the existing collections, asking for
    replacement changes nothing: the run with the flag set is the run
    without it, it is the listing followed by the create request, it makes
    no drop call, and its result is the store's answer to that request. *)
Theorem replace_of_absent_is_create name vfn dim metric s names s1 :
  client_list_collections client s = (inr names, s1) ->
  py_in name names = false ->
  provision name vfn dim metric true s = provision name vfn dim metric false s /\
  trace (provision name vfn dim metric true s) =
    [Call_list_collections; Call_create_collection (kwargs name vfn dim metric)] /\
  count_calls is_drop_call (trace (provision name vfn dim metric true s)) = 0%nat /\
  result (provision name vfn dim metric true s) =
    fst (client_create_collection client (kwargs name vfn dim metric) s1) /\
  final_store (provision name vfn dim metric true s) =
    snd (client_create_collection client (kwargs name vfn dim metric) s1).
Proof.
  intros Hlist Habsent.
  rewrite !(provision_absent name vfn dim metric _ s names s1 Hlist Habsent).
  repeat split.
Qed.

(** C5, as the code has it.  [create_collection] does not look at the
    dimension.  With a dimension of zero or less it still asks the store for
    its collections first and, the name being absent, sends the create
    request with that dimension unchanged; the outcome of the call is the
    store's answer to that request. *)
Theorem nonpositive_dimension_is_forwarded name vfn dim metric del s names s1 :
  dim <= 0 ->
  client_list_collections client s = (inr names, s1) ->
  py_in name names = false ->
  trace (provision name vfn dim metric del s) =
    [Call_list_collections; Call_create_collection (kwargs name vfn dim metric)] /\
  kw_dimension (kwargs name vfn dim metric) = dim /\
  result (provision name vfn dim metric del s) =
    fst (client_create_collection client (kwargs name vfn dim metric) s1) /\
  final_store (provision name vfn dim metric del s) =
    snd (client_create_collection client (kwargs name vfn dim metric) s1).
Proof.
  intros _ Hlist Habsent.
  rewrite !(provision_absent name vfn dim metric del s names s1 Hlist Habsent).
  repeat split.
Qed.

End ProvisionFacts.

(** ** Provisioning against the reference server *)

Section RefServerFacts.

Context {Image : Type}.
Implicit Types st : gmap string RefServer.Collection.

Abbreviation ref_provision :=
  (create_collection (Image := Image) RefServer.client).

Lemma ref_listed_present st name c :
  st !! name = Some c -> py_in name (map fst (map_to_list st)) = true.
Proof.
  intros Hc. apply py_in_true, in_map_iff. exists (name, c).
  split; [reflexivity |]. apply list_elem_of_In, elem_of_map_to_list. exact Hc.
Qed.

Lemma ref_listed_absent st name :
  st !! name = None -> py_in name (map fst (map_to_list st)) = false.
Proof.
  intros Hnone. apply not_true_is_false. intros Hin.
  apply py_in_true, in_map_iff in Hin. destruct Hin as ([k c] & Hk & Hin).
  cbn in Hk. subst k. apply list_elem_of_In, elem_of_map_to_list in Hin.
  congruence.
Qed.

Lemma ref_create_fresh st name vfn dim metric :
  st !! name = None -> 0 < dim ->
  RefServer.create_collection (kwargs name vfn dim metric) st =
    (inr tt,
     <[name := {| RefServer.schema := kwargs name vfn dim metric;
                  RefServer.rows := [] |}]> st).
Proof.
  intros Hnone Hdim. unfold RefServer.create_collection. cbn [kwargs kw_dimension kw_collection_name].
  destruct (dim <=? 0) eqn:Hle; [apply Z.leb_le in Hle; lia |].
  rewrite Hnone. reflexivity.
Qed.

(** C7. Provisioning twice under the same name without asking for
    replacement, starting from a store that does not have the name: the
    first call creates the collection, the second one only lists and warns.
    The second call sends neither a create nor a drop request and leaves the
    store, hence the collection's schema, as the first call left it, even
    when it is given other schema fields. *)
Theorem provision_twice st name vfn dim metric vfn' dim' metric' :
  st !! name = None ->
  0 < dim ->
  result (ref_provision name vfn dim metric false st) = inr tt /\
  provisioning_outcome (trace (ref_provision name vfn dim metric false st)) =
    Some Created /\
  result (ref_provision name vfn' dim' metric' false
            (final_store (ref_provision name vfn dim metric false st))) = inr tt /\
  provisioning_outcome
    (trace (ref_provision name vfn' dim' metric' false
              (final_store (ref_provision name vfn dim metric false st)))) =
    Some Skipped /\
  count_calls is_create_call
    (trace (ref_provision name vfn' dim' metric' false
              (final_store (ref_provision name vfn dim metric false st)))) = 0%nat /\
  count_calls is_drop_call
    (trace (ref_provision name vfn' dim' metric' false
              (final_store (ref_provision name vfn dim metric false st)))) = 0%nat /\
  final_store (ref_provision name vfn' dim' metric' false
                 (final_store (ref_provision name vfn dim metric false st))) =
    final_store (ref_provision name vfn dim metric false st) /\
  final_store (ref_provision name vfn' dim' metric' false
                 (final_store (ref_provision name vfn dim metric false st)))
    !! name =
    Some {| RefServer.schema := kwargs name vfn dim metric; RefServer.rows := [] |}.
Proof.
  intros Hnone Hdim.
  rewrite (provision_absent RefServer.client name vfn dim metric false st
             (map fst (map_to_list st)) st eq_refl (ref_listed_absent st name Hnone)).
  cbn [client_create_collection RefServer.client].
  rewrite (ref_create_fresh st name vfn dim metric Hnone Hdim).
  cbn [trace final_store result fst snd].
  set (st1 := <[name := _]> st).
  assert (Hst1 : st1 !! name =
            Some {| RefServer.schema := kwargs name vfn dim metric;
                    RefServer.rows := [] |})
    by apply lookup_insert_eq.
  rewrite (provision_skip RefServer.client name vfn' dim' metric' st1
             (map fst (map_to_list st1)) st1 eq_refl
             (ref_listed_present st1 name _ Hst1)).
  cbn [trace final_store result fst snd]. rewrite Hst1.
  repeat split.
Qed.

(** C6. Replacement: when the name is present and replacement is asked,
    the existing collection is dropped first and the create request follows
    with the new keyword arguments.  The collection found under the name
    afterwards has exactly the new schema, whatever the old one was, and
    holds no row; the other collections are untouched. *)
Theorem replace_installs_new_schema st name old vfn dim metric :
  st !! name = Some old ->
  0 < dim ->
  result (ref_provision name vfn dim metric true st) = inr tt /\
  List.filter is_store_call (trace (ref_provision name vfn dim metric true st)) =
    [Call_list_collections; Call_drop_collection name;
     Call_create_collection (kwargs name vfn dim metric)] /\
  provisioning_outcome (trace (ref_provision name vfn dim metric true st)) =
    Some Replaced /\
  final_store (ref_provision name vfn dim metric true st) !! name =
    Some {| RefServer.schema := kwargs name vfn dim metric; RefServer.rows := [] |} /\
  forall other, other <> name ->
    final_store (ref_provision name vfn dim metric true st) !! other = st !! other.
Proof.
  intros Hold Hdim.
  rewrite (provision_replace RefServer.client name vfn dim metric st
             (map fst (map_to_list st)) st (delete name st) eq_refl
             (ref_listed_present st name old Hold) eq_refl).
  cbn [client_create_collection RefServer.client].
  rewrite (ref_create_fresh (delete name st) name vfn dim metric
             (lookup_delete_eq st name) Hdim).
  cbn [trace final_store result fst snd].
  repeat split.
  - apply lookup_insert_eq.
  - intros other Hother.
    rewrite lookup_insert_ne by congruence.
    apply lookup_delete_ne. congruence.
Qed.

End RefServerFacts.

(** ** The whole script *)

Section MainFacts.

Context {Image Embedding Store : Type}.
Variable defaults : Defaults.
Variable host : Host Image Embedding Store.

(** A [--data_type] outside the declared choices never gets past argparse. *)
Lemma main_rejects_unknown_choice cmd t s :
  opt_data_type cmd = Some t ->
  py_in t data_type_choices = false ->
  main defaults host cmd s = ([], s, inl (SystemExit 2)).
Proof.
  intros Ht Hbad. unfold main, bind, parse_args.
  destruct (opt_data_path cmd); [| reflexivity].
  rewrite Ht, Hbad. reflexivity.
Qed.

(** C1, as the code has it.  When the collection name is already present
    and replacement is not asked, provisioning only lists the collections
    and warns (no create, no drop) and returns normally; [main] then goes
    on to the ingestion step against the existing collection.  The run of
    [main] is the provisioning prefix followed by the run of [insert_data]
    on the store as the listing left it, so its extractor calls and its
    insert calls are exactly those of that ingestion. *)
Theorem skip_does_not_block_ingestion cmd args client extractor names ds s s1 s2 :
  parse_args (Image := Image) (Embedding := Embedding) defaults cmd s =
    ([], s, inr args) ->
  MilvusClient_new host (uri args) (db_name args) s = (inr client, s1) ->
  JinaCLIPFeatureExtractor_new host = inr extractor ->
  client_list_collections client s1 = (inr names, s2) ->
  py_in (collection_name args) names = true ->
  delete_existing_collection args = false ->
  (data_type args = Some "flickr8k" /\
   FlickrDataset_new host (data_path args) = inr ds) \/
  (data_type args = Some "flickr30k" /\
   Flickr30kDataset_new host (data_path args) = inr ds) ->
  provisioning_outcome
    (trace (create_collection (Image := Image) client (collection_name args)
              (DEFAULT_VECTOR_FIELD_NAME defaults) (dimension args)
              (metric_type args) false s1)) = Some Skipped /\
  (exists kind,
    trace (main defaults host cmd s) =
      ([Call_logger_info "Running insert operation with arguments: %s" ArgNone;
        Call_MilvusClient (uri args) (db_name args);
        Call_JinaCLIPFeatureExtractor;
        Call_list_collections;
        Call_logger_warning skip_warning (ArgStr (collection_name args));
        Call_Dataset kind (data_path args)] ++
       trace (insert_data host ds client (collection_name args)
                (DEFAULT_VECTOR_FIELD_NAME defaults) extractor s2))%list) /\
  result (main defaults host cmd s) =
    result (insert_data host ds client (collection_name args)
              (DEFAULT_VECTOR_FIELD_NAME defaults) extractor s2) /\
  final_store (main defaults host cmd s) =
    final_store (insert_data host ds client (collection_name args)
                   (DEFAULT_VECTOR_FIELD_NAME defaults) extractor s2) /\
  count_calls is_extractor_call (trace (main defaults host cmd s)) =
    count_calls is_extractor_call
      (trace (insert_data host ds client (collection_name args)
                (DEFAULT_VECTOR_FIELD_NAME defaults) extractor s2)) /\
  count_calls is_insert_call (trace (main defaults host cmd s)) =
    count_calls is_insert_call
      (trace (insert_data host ds client (collection_name args)
                (DEFAULT_VECTOR_FIELD_NAME defaults) extractor s2)).
Proof.
  intros Hargs Hclient Hextractor Hlist Hpresent Hflag Hdataset.
  pose proof (provision_skip (Image := Image) client (collection_name args)
                (DEFAULT_VECTOR_FIELD_NAME defaults) (dimension args)
                (metric_type args) s1 names s2 Hlist Hpresent) as Hskip.
  split; [rewrite Hskip; reflexivity |].
  set (ingest := insert_data host ds client (collection_name args)
                   (DEFAULT_VECTOR_FIELD_NAME defaults) extractor) in *.
  assert (Hmain : exists kind,
    main defaults host cmd s =
      (([Call_logger_info "Running insert operation with arguments: %s" ArgNone;
         Call_MilvusClient (uri args) (db_name args);
         Call_JinaCLIPFeatureExtractor;
         Call_list_collections;
         Call_logger_warning skip_warning (ArgStr (collection_name args));
         Call_Dataset kind (data_path args)] ++ trace (ingest s2))%list,
       final_store (ingest s2), result (ingest s2))).
  { destruct (ingest s2) as [[cs s3] r] eqn:Hingest.
    unfold main, bind, local, remote.
    rewrite Hargs, Hclient, Hextractor, Hflag, Hskip.
    destruct Hdataset as [[-> Hds] | [-> Hds]]; cbv iota; rewrite Hds;
      fold ingest; rewrite Hingest; eexists; reflexivity. }
  destruct Hmain as (kind & Hmain). rewrite Hmain.
  cbn [trace final_store result fst snd].
  split; [exists kind; reflexivity |].
  rewrite !count_calls_app. cbn. auto.
Qed.

End MainFacts.

(** ** The properties on the sample installation *)

Section Samples.

Import Fixture.

Lemma sample_all_succeed :
  all_succeed ref_host RefServer.client "images" "vector" extractor [dog; cat]
    compatible.
Proof.
  cbn [all_succeed].
  do 3 eexists. do 3 (split; [reflexivity |]).
  do 3 eexists. do 3 (split; [reflexivity |]).
  exact I.
Defined.

Lemma count_conservation_witness :
  all_succeed ref_host RefServer.client "images" "vector" extractor [dog; cat]
    compatible /\
  result (insert_data_loop ref_host RefServer.client "images" "vector" extractor
            [dog; cat] 0 compatible) = inr 2 /\
  attempted_count
    (trace (insert_data_loop ref_host RefServer.client "images" "vector" extractor
              [dog; cat] 0 compatible)) = 2.
Proof.
  split; [exact sample_all_succeed |].
  destruct (count_conservation ref_host RefServer.client "images" "vector"
              extractor [dog; cat] compatible sample_all_succeed)
    as (Hres & Hatt & _).
  split; [exact Hres | exact Hatt].
Defined.

(** C2 fails on the code: two items, the first one unreadable.  The claim
    promises a completed run with 2 attempted and 2 - 1 inserted; the run
    stops on the [OSError] of the first item, the second item is never
    looked at and nothing is inserted. *)
Lemma partial_failure_aborts_run :
  result run_with_missing_file = inl (OSError "No such file or directory") /\
  trace run_with_missing_file = [Call_Image_open "missing.jpg"] /\
  ~ (result run_with_missing_file = inr (2 - 1) /\
     attempted_count (trace run_with_missing_file) = 2).
Proof.
  split; [reflexivity |]. split; [reflexivity |].
  intros [Hres _]. discriminate Hres.
Qed.

Lemma first_failure_ends_run_witness :
  all_succeed ref_host RefServer.client "images" "vector" extractor [dog] compatible /\
  fails_before_insert ref_host extractor odd (RuntimeError "unsupported image") /\
  result (insert_data_loop ref_host RefServer.client "images" "vector" extractor
            ([dog] ++ odd :: [cat]) 0 compatible) =
    inl (RuntimeError "unsupported image") /\
  count_calls is_insert_call
    (trace (insert_data_loop ref_host RefServer.client "images" "vector" extractor
              ([dog] ++ odd :: [cat]) 0 compatible)) = 1%nat.
Proof.
  assert (Hpre : all_succeed ref_host RefServer.client "images" "vector" extractor
                   [dog] compatible).
  { cbn [all_succeed]. do 3 eexists. do 3 (split; [reflexivity |]). exact I. }
  assert (Hbad : fails_before_insert ref_host extractor odd
                   (RuntimeError "unsupported image")).
  { right. exists "odd.jpg". split; reflexivity. }
  split; [exact Hpre |]. split; [exact Hbad |].
  destruct (first_failure_ends_run ref_host RefServer.client "images" "vector"
              extractor [dog] odd [cat] _ compatible Hpre Hbad)
    as (Hres & _ & Hins & _).
  split; [exact Hres | exact Hins].
Defined.

Lemma inserted_count_never_decreases_witness :
  exists c',
    result (insert_data_loop scripted_host ScriptedServer.client "images" "vector"
              extractor ([dog] ++ [cat]) 0 [3; -2]) = inr c' /\
    3 <= c' /\ c' = 3.
Proof.
  destruct (inserted_count_never_decreases scripted_host ScriptedServer.client
              "images" "vector" extractor [dog] cat [3; -2]
              [Call_Image_open "dog.jpg"; Call_get_image_features "dog.jpg";
               Call_insert "images" [row_of "vector" dog "a dog" [1; 0; 0; 0]]]
              [-2] 3 "cat.jpg" [1; 0; 0; 0] (-2) []
              eq_refl eq_refl eq_refl eq_refl)
    as (_ & _ & c' & Hres & Hle & Hkeep & _).
  exists c'. split; [exact Hres |]. split; [exact Hle |].
  apply Hkeep. lia.
Defined.

Lemma row_keys_witness :
  trace (insert_data_body ref_host RefServer.client "images" "filename" extractor
           0 dog compatible) =
    [Call_Image_open "dog.jpg"; Call_get_image_features "dog.jpg";
     Call_insert "images" [row_of "filename" dog "a dog" [1; 0; 0; 0]]] /\
  row_of "filename" dog "a dog" [1; 0; 0; 0] =
    [("filename", VEmb [1; 0; 0; 0]); ("caption", VStr "a dog")] /\
  length (PyDict.keys (row_of "filename" dog "a dog" [1; 0; 0; 0])) = 2%nat.
Proof.
  destruct (row_keys ref_host RefServer.client "images" "filename" extractor
              0 dog compatible "dog.jpg" [1; 0; 0; 0] eq_refl eq_refl)
    as (Htrace & _ & Hrow & Hlen).
  split; [exact Htrace |]. split; [exact Hrow | exact Hlen].
Defined.

Lemma replace_of_absent_is_create_witness :
  create_collection (Image := Image) RefServer.client "images" "vector" 4 "COSINE"
    true empty_store =
  create_collection (Image := Image) RefServer.client "images" "vector" 4 "COSINE"
    false empty_store /\
  count_calls is_drop_call
    (trace (create_collection (Image := Image) RefServer.client "images" "vector" 4
              "COSINE" true empty_store)) = 0%nat.
Proof.
  destruct (replace_of_absent_is_create (Image := Image) RefServer.client
              "images" "vector" 4 "COSINE" empty_store [] empty_store
              ltac:(vm_compute; reflexivity) eq_refl)
    as (Hsame & _ & Hdrop & _).
  split; [exact Hsame | exact Hdrop].
Defined.

(** C5 fails on the code: provisioning a fresh name with dimension 0 is not
    stopped before the store.  The script lists the collections and sends
    the create request carrying dimension 0; the error that ends the call
    is the server's answer to that request. *)
Lemma dimension_zero_reaches_store :
  trace provision_dimension_zero =
    [Call_list_collections;
     Call_create_collection (kwargs "images" "vector" 0 "COSINE")] /\
  result provision_dimension_zero = inl (MilvusException "invalid dimension") /\
  ~ count_calls is_store_call (trace provision_dimension_zero) = 0%nat.
Proof.
  split; [reflexivity |]. split; [reflexivity |]. cbn. discriminate.
Qed.

Lemma nonpositive_dimension_is_forwarded_witness :
  0 <= 0 /\
  trace (create_collection (Image := Image) RefServer.client "images" "vector" 0
           "COSINE" false empty_store) =
    [Call_list_collections;
     Call_create_collection (kwargs "images" "vector" 0 "COSINE")] /\
  kw_dimension (kwargs "images" "vector" 0 "COSINE") = 0.
Proof.
  split; [lia |].
  destruct (nonpositive_dimension_is_forwarded (Image := Image) RefServer.client
              "images" "vector" 0 "COSINE" false empty_store [] empty_store ltac:(lia)
              ltac:(vm_compute; reflexivity) eq_refl)
    as (Htrace & Hdim & _).
  split; [exact Htrace | exact Hdim].
Defined.

Lemma provision_twice_witness :
  provisioning_outcome
    (trace (create_collection (Image := Image) RefServer.client "images" "vector" 4
              "COSINE" false empty_store)) = Some Created /\
  provisioning_outcome
    (trace (create_collection (Image := Image) RefServer.client "images" "other" 8
              "L2" false
              (final_store
                 (create_collection (Image := Image) RefServer.client "images"
                    "vector" 4 "COSINE" false empty_store)))) = Some Skipped /\
  final_store
    (create_collection (Image := Image) RefServer.client "images" "other" 8 "L2" false
       (final_store
          (create_collection (Image := Image) RefServer.client "images" "vector" 4
             "COSINE" false empty_store))) !! "images" =
    Some {| RefServer.schema := kwargs "images" "vector" 4 "COSINE";
            RefServer.rows := [] |}.
Proof.
  destruct (provision_twice (Image := Image) empty_store "images" "vector" 4 "COSINE"
              "other" 8 "L2" eq_refl ltac:(lia))
    as (_ & Hfirst & _ & Hsecond & _ & _ & _ & Hschema).
  split; [exact Hfirst |]. split; [exact Hsecond | exact Hschema].
Defined.

Lemma replace_installs_new_schema_witness :
  populated !! "images" =
    Some {| RefServer.schema := old_schema; RefServer.rows := [old_row] |} /\
  final_store
    (create_collection (Image := Image) RefServer.client "images" "vector" 4
       "COSINE" true populated) !! "images" =
    Some {| RefServer.schema := kwargs "images" "vector" 4 "COSINE";
            RefServer.rows := [] |}.
Proof.
  split; [reflexivity |].
  destruct (replace_installs_new_schema (Image := Image) populated "images"
              {| RefServer.schema := old_schema; RefServer.rows := [old_row] |}
              "vector" 4 "COSINE" eq_refl ltac:(lia))
    as (_ & _ & _ & Hschema & _).
  exact Hschema.
Defined.

(** C1 fails on the code: the collection exists and replacement is not
    asked, so provisioning takes the skipping path; the script nevertheless
    goes through the dataset, calling the extractor twice and the insert
    endpoint twice. *)
Lemma ingestion_runs_after_skip :
  provisioning_outcome
    (trace (create_collection (Image := Image) RefServer.client "images" "vector" 4
              "COSINE" false compatible)) = Some Skipped /\
  count_calls is_extractor_call (trace run_on_existing) = 2%nat /\
  count_calls is_insert_call (trace run_on_existing) = 2%nat /\
  ~ (count_calls is_extractor_call (trace run_on_existing) = 0%nat /\
     count_calls is_insert_call (trace run_on_existing) = 0%nat).
Proof.
  assert (Hext : count_calls is_extractor_call (trace run_on_existing) = 2%nat)
    by (vm_compute; reflexivity).
  assert (Hins : count_calls is_insert_call (trace run_on_existing) = 2%nat)
    by (vm_compute; reflexivity).
  split; [vm_compute; reflexivity |]. split; [exact Hext |]. split; [exact Hins |].
  rewrite Hext. intros [Hzero _]. discriminate Hzero.
Qed.

Lemma skip_does_not_block_ingestion_witness :
  result run_on_existing =
    result (insert_data ref_host [dog; cat] RefServer.client "images" "vector"
              extractor compatible) /\
  count_calls is_insert_call (trace run_on_existing) =
    count_calls is_insert_call
      (trace (insert_data ref_host [dog; cat] RefServer.client "images" "vector"
                extractor compatible)).
Proof.
  destruct (skip_does_not_block_ingestion defaults ref_host
              (cmdline (Some "flickr8k") false)
              {| data_path := "/data/flickr"; data_type := Some "flickr8k";
                 uri := "http://localhost:19530"; collection_name := "images";
                 db_name := "default"; dimension := 4; metric_type := "COSINE";
                 delete_existing_collection := false |}
              RefServer.client extractor ["images"] [dog; cat]
              compatible compatible compatible
              eq_refl eq_refl eq_refl ltac:(vm_compute; reflexivity) eq_refl eq_refl
              (or_introl (conj eq_refl eq_refl)))
    as (_ & _ & Hres & _ & _ & Hins).
  split; [exact Hres | exact Hins].
Defined.

(** C4 on the code: started without [--data_type] (and with
    [--delete_existing_collection]), the script ends on
    [ValueError("Invalid dataset type")] with exit status 1, but only after
    it has connected to the store, listed its collections, dropped the
    existing collection with its row and created an empty one. *)
Theorem missing_data_type_reaches_store :
  parse_args (Image := Image) (Embedding := list Z) defaults (cmdline None true)
    populated =
    ([], populated,
     inr {| data_path := "/data/flickr"; data_type := None;
            uri := "http://localhost:19530"; collection_name := "images";
            db_name := "default"; dimension := 4; metric_type := "COSINE";
            delete_existing_collection := true |}) /\
  result run_without_data_type = inl (ValueError "Invalid dataset type") /\
  exit_status (ValueError "Invalid dataset type") = 1 /\
  List.filter is_store_call (trace run_without_data_type) =
    [Call_MilvusClient "http://localhost:19530" "default";
     Call_list_collections;
     Call_drop_collection "images";
     Call_create_collection (kwargs "images" "vector" 4 "COSINE")] /\
  populated !! "images" =
    Some {| RefServer.schema := old_schema; RefServer.rows := [old_row] |} /\
  final_store run_without_data_type !! "images" =
    Some {| RefServer.schema := kwargs "images" "vector" 4 "COSINE";
            RefServer.rows := [] |}.
Proof. repeat split. Qed.

End Samples.

(** * Further properties *)

(** ** Provisioning, for any client *)

Section ProvisionSafety.

Context {Image Embedding Store : Type}.
Variable client : MilvusClient Embedding Store.

Abbreviation provisioning := (create_collection (Image := Image) client).

Lemma provision_list_raises name vfn dim metric del s e s1 :
  client_list_collections client s = (inl e, s1) ->
  provisioning name vfn dim metric del s = ([Call_list_collections], s1, inl e).
Proof.
  intros Hlist. unfold create_collection, bind, remote. rewrite Hlist. reflexivity.
Qed.

Lemma provision_drop_raises name vfn dim metric s names s1 e s2 :
  client_list_collections client s = (inr names, s1) ->
  py_in name names = true ->
  client_drop_collection client name s1 = (inl e, s2) ->
  provisioning name vfn dim metric true s =
    ([Call_list_collections; Call_drop_collection name], s2, inl e).
Proof.
  intros Hlist Hpresent Hdrop. unfold create_collection, bind, remote, local.
  rewrite Hlist, Hpresent. cbn [negb]. rewrite Hdrop. reflexivity.
Qed.

(** All the ways a call can go. *)
Ltac provision_paths name del s :=
  let e := fresh "e" in
  let names := fresh "names" in
  let s1 := fresh "s1" in
  let s2 := fresh "s2" in
  let Hlist := fresh "Hlist" in
  let Hin := fresh "Hin" in
  let Hdrop := fresh "Hdrop" in
  destruct (client_list_collections client s) as [[e | names] s1] eqn:Hlist;
  [ rewrite !(provision_list_raises name _ _ _ _ s e s1 Hlist)
  | destruct (py_in name names) eqn:Hin;
    [ destruct del;
      [ destruct (client_drop_collection client name s1) as [[e | []] s2] eqn:Hdrop;
        [ rewrite !(provision_drop_raises name _ _ _ s names s1 e s2 Hlist Hin Hdrop)
        | rewrite !(provision_replace client name _ _ _ s names s1 s2 Hlist Hin Hdrop) ]
      | rewrite !(provision_skip client name _ _ _ s names s1 Hlist Hin) ]
    | rewrite !(provision_absent client name _ _ _ del s names s1 Hlist Hin) ] ];
  cbn [trace final_store result fst snd];
  repeat match goal with
         | H : py_in _ _ = _ |- _ => rewrite H
         | H : client_drop_collection _ _ _ = _ |- _ => rewrite H
         end.

(** X1. A collection is dropped only when the flag is set and the listing
    names it: the drop requests of a call are exactly [name] in that case
    and none in every other, failures of the store included.  In
    particular no call without the flag ever drops anything, and no other
    collection is ever dropped. *)
Theorem drops_exactly_when_asked_and_present name vfn dim metric del s :
  dropped (trace (provisioning name vfn dim metric del s)) =
    match fst (client_list_collections client s) with
    | inr names => if py_in name names && del then [name] else []
    | inl _ => []
    end.
Proof.
  provision_paths name del s; reflexivity.
Qed.

(** X2. A call sends at most one create request.  It is sent when the
    name is not listed, or when it is listed, the flag is set and the drop
    went through; it is not sent after a failed listing, after a failed
    drop, or when the call skips.  The request carries the name, vector
    field, dimension and metric given to the call, with [auto_id] and
    [enable_dynamic_field] set. *)
Theorem create_request_sent_once name vfn dim metric del s :
  created (trace (provisioning name vfn dim metric del s)) =
    match client_list_collections client s with
    | (inl _, _) => []
    | (inr names, s1) =>
        if py_in name names then
          if del then
            match fst (client_drop_collection client name s1) with
            | inr _ => [kwargs name vfn dim metric]
            | inl _ => []
            end
          else []
        else [kwargs name vfn dim metric]
    end /\
  (length (created (trace (provisioning name vfn dim metric del s))) <= 1)%nat /\
  Forall
    (fun kw =>
       kw_collection_name kw = name /\ kw_vector_field_name kw = vfn /\
       kw_dimension kw = dim /\ kw_metric_type kw = metric /\
       kw_auto_id kw = true /\ kw_enable_dynamic_field kw = true)
    (created (trace (provisioning name vfn dim metric del s))).
Proof.
  provision_paths name del s; cbn;
    repeat split; try lia; repeat constructor.
Qed.

(** X3. Errors of the store during provisioning are not handled: when the
    listing raises, or when the drop of a listed collection raises, the call
    ends with that exception, nothing is created, and the store is the one
    the failed request left. *)
Theorem provisioning_error_propagates name vfn dim metric del s e s' :
  client_list_collections client s = (inl e, s') \/
  (exists names s1,
      client_list_collections client s = (inr names, s1) /\
      py_in name names = true /\ del = true /\
      client_drop_collection client name s1 = (inl e, s')) ->
  result (provisioning name vfn dim metric del s) = inl e /\
  final_store (provisioning name vfn dim metric del s) = s' /\
  created (trace (provisioning name vfn dim metric del s)) = [].
Proof.
  intros [Hlist | (names & s1 & Hlist & Hin & -> & Hdrop)].
  - rewrite !(provision_list_raises name vfn dim metric del s e s' Hlist).
    repeat split.
  - rewrite !(provision_drop_raises name vfn dim metric s names s1 e s' Hlist Hin
                Hdrop).
    repeat split.
Qed.

(** X4. The store is always asked for its collections first and exactly
    once, and a create request, when there is one, is the last call of the
    run. *)
Theorem listing_first_create_last name vfn dim metric del s :
  hd_error (trace (provisioning name vfn dim metric del s)) =
    Some Call_list_collections /\
  count_calls is_list_call (trace (provisioning name vfn dim metric del s)) = 1%nat /\
  (created (trace (provisioning name vfn dim metric del s)) = [] \/
   last (trace (provisioning name vfn dim metric del s)) =
     Some (Call_create_collection (kwargs name vfn dim metric))).
Proof.
  provision_paths name del s; cbn; repeat split; auto.
Qed.

(** X5. Replacement is not atomic: when the drop went through and the
    create request then raises, the call ends with that exception after the
    existing collection has been dropped, and the store is left as the
    failed create request left it. *)
Theorem failed_create_after_drop name vfn dim metric s names s1 s2 e s3 :
  client_list_collections client s = (inr names, s1) ->
  py_in name names = true ->
  client_drop_collection client name s1 = (inr tt, s2) ->
  client_create_collection client (kwargs name vfn dim metric) s2 = (inl e, s3) ->
  result (provisioning name vfn dim metric true s) = inl e /\
  final_store (provisioning name vfn dim metric true s) = s3 /\
  dropped (trace (provisioning name vfn dim metric true s)) = [name].
Proof.
  intros Hlist Hin Hdrop Hcreate.
  rewrite !(provision_replace client name vfn dim metric s names s1 s2 Hlist Hin
              Hdrop), Hcreate.
  repeat split.
Qed.

Lemma provisioning_makes_no_ingestion_call name vfn dim metric del s :
  inserted_rows (trace (provisioning name vfn dim metric del s)) = [] /\
  count_calls is_dataset_call (trace (provisioning name vfn dim metric del s)) = 0%nat /\
  count_calls is_open_call (trace (provisioning name vfn dim metric del s)) = 0%nat /\
  count_calls is_extractor_call (trace (provisioning name vfn dim metric del s)) =
    0%nat.
Proof.
  provision_paths name del s; repeat split.
Qed.

End ProvisionSafety.

(** ** The insertion loop, for any client *)

Section LoopShape.

Context {Image Embedding Store : Type}.
Variable host : Host Image Embedding Store.
Variable client : MilvusClient Embedding Store.
Variables collection_name vector_field_name : string.
Variable feature_extractor : MultimodalFeatureExtractor Image Embedding.

Abbreviation body := (insert_data_body host client collection_name
                    vector_field_name feature_extractor).
Abbreviation loop := (insert_data_loop host client collection_name
                    vector_field_name feature_extractor).
Abbreviation ingest ds := (insert_data host ds client collection_name
                    vector_field_name feature_extractor).
Abbreviation the_row x embeddings :=
  (row_of vector_field_name x (best_caption x) embeddings).

(** The four ways one iteration can go. *)
Lemma body_cases c x s :
  (exists e,
      Image_open host (image_path x) = inl e /\
      body c x s = ([Call_Image_open (image_path x)], s, inl e)) \/
  (exists image e,
      Image_open host (image_path x) = inr image /\
      get_image_features image = inl e /\
      body c x s =
        ([Call_Image_open (image_path x); Call_get_image_features image], s, inl e)) \/
  (exists image embeddings e s',
      Image_open host (image_path x) = inr image /\
      get_image_features image = inr embeddings /\
      client_insert client collection_name [the_row x embeddings] s = (inl e, s') /\
      body c x s =
        ([Call_Image_open (image_path x); Call_get_image_features image;
          Call_insert collection_name [the_row x embeddings]], s', inl e)) \/
  (exists image embeddings ack s',
      Image_open host (image_path x) = inr image /\
      get_image_features image = inr embeddings /\
      client_insert client collection_name [the_row x embeddings] s = (inr ack, s') /\
      body c x s =
        ([Call_Image_open (image_path x); Call_get_image_features image;
          Call_insert collection_name [the_row x embeddings]], s',
         inr (if 0 <? ack then c + ack else c))).
Proof.
  destruct (Image_open host (image_path x)) as [e | image] eqn:Hopen.
  { left. exists e. split; [reflexivity |]. apply body_open_raises, Hopen. }
  destruct (get_image_features image) as [e | embeddings] eqn:Hfeat.
  { right; left. exists image, e. repeat split; try assumption.
    apply body_extractor_raises; assumption. }
  destruct (client_insert client collection_name [the_row x embeddings] s)
    as [[e | ack] s'] eqn:Hins.
  - right; right; left. exists image, embeddings, e, s'.
    repeat split; try assumption. apply body_insert_raises; assumption.
  - right; right; right. exists image, embeddings, ack, s'.
    repeat split; try assumption. apply body_success; assumption.
Qed.

Lemma ingestion_insert_call (row : PyDict.t (value Embedding)) :
  is_ingestion_call collection_name
    (Call_insert (Image := Image) collection_name [row]) = true.
Proof. cbn. rewrite String.eqb_refl. reflexivity. Qed.

Lemma loop_shape ds c s :
  forallb (is_ingestion_call collection_name) (trace (loop ds c s)) = true /\
  (count_calls is_insert_call (trace (loop ds c s)) <=
     count_calls is_extractor_call (trace (loop ds c s)))%nat /\
  (count_calls is_extractor_call (trace (loop ds c s)) <=
     count_calls is_open_call (trace (loop ds c s)))%nat /\
  (count_calls is_open_call (trace (loop ds c s)) <= length ds)%nat /\
  (forall c', result (loop ds c s) = inr c' ->
     count_calls is_open_call (trace (loop ds c s)) = length ds /\
     count_calls is_extractor_call (trace (loop ds c s)) = length ds /\
     count_calls is_insert_call (trace (loop ds c s)) = length ds).
Proof.
  revert c s. induction ds as [| x ds IH]; intros c s.
  { cbn. repeat split; auto. }
  cbn [insert_data_loop length].
  destruct (body_cases c x s)
    as [(e & _ & Hb)
       | [(image & e & _ & _ & Hb)
         | [(image & embeddings & e & s' & _ & _ & _ & Hb)
           | (image & embeddings & ack & s' & _ & _ & _ & Hb)]]].
  - rewrite (bind_inl _ _ _ _ _ _ Hb). cbn.
    repeat split; try lia; discriminate.
  - rewrite (bind_inl _ _ _ _ _ _ Hb). cbn.
    repeat split; try lia; discriminate.
  - rewrite (bind_inl _ _ _ _ _ _ Hb). cbn [trace result fst snd forallb].
    rewrite ingestion_insert_call. cbn.
    repeat split; try lia; discriminate.
  - rewrite (bind_inr _ _ _ _ _ _ Hb).
    set (c1 := if 0 <? ack then c + ack else c).
    destruct (IH c1 s') as (Hall & Hie & Heo & Hol & Hdone).
    cbn [trace result fst snd]. rewrite forallb_app, !count_calls_app.
    cbn [forallb]. rewrite ingestion_insert_call, Hall. cbn.
    repeat split; try lia;
      match goal with
      | H : result _ = inr ?c' |- _ => destruct (Hdone c' H) as (Ho & He & Hi); lia
      end.
Qed.

(** X6. Whatever happens during a run of the loop, an insert is only sent
    for an image that was embedded and an image is only embedded after it
    was opened: there are never more insert calls than extractor calls, more
    extractor calls than opened images, or more opened images than items. *)
Theorem calls_follow_the_pipeline ds s :
  (count_calls is_insert_call (trace (loop ds 0 s)) <=
     count_calls is_extractor_call (trace (loop ds 0 s)))%nat /\
  (count_calls is_extractor_call (trace (loop ds 0 s)) <=
     count_calls is_open_call (trace (loop ds 0 s)))%nat /\
  (count_calls is_open_call (trace (loop ds 0 s)) <= length ds)%nat.
Proof.
  destruct (loop_shape ds 0 s) as (_ & Hie & Heo & Hol & _). auto.
Qed.

(** X7. A run of [insert_data] that ends normally has gone through the
    whole dataset: every item was opened, embedded and sent to the store
    exactly once, and a count was logged. *)
Theorem normal_end_covers_dataset ds s :
  result (ingest ds s) = inr tt ->
  count_calls is_open_call (trace (ingest ds s)) = length ds /\
  count_calls is_extractor_call (trace (ingest ds s)) = length ds /\
  count_calls is_insert_call (trace (ingest ds s)) = length ds /\
  length (inserted_rows (trace (ingest ds s))) = length ds /\
  exists n, logged_inserted_count (trace (ingest ds s)) = Some n /\ 0 <= n.
Proof.
  rewrite insert_data_unfold.
  destruct (loop ds 0 s) as [[cs s'] [e | n]] eqn:Hloop.
  { rewrite (bind_inl _ _ _ _ _ _ Hloop). discriminate. }
  rewrite (bind_inr _ _ _ _ _ _ Hloop). intros _.
  destruct (loop_shape ds 0 s) as (Hall & _ & _ & _ & Hdone).
  rewrite Hloop in Hall, Hdone. cbn [trace result fst snd] in *.
  destruct (Hdone n eq_refl) as (Ho & He & Hi).
  cbn [local trace fst snd].
  rewrite !count_calls_app, Ho, He, Hi, logged_inserted_count_last.
  cbn. repeat split; try lia.
  - clear - Hall Hi. unfold count_calls in Hi. rewrite <- Hi.
    unfold inserted_rows. rewrite flat_map_app, length_app. cbn.
    rewrite Nat.add_0_r. clear Hi.
    induction cs as [| c cs IH]; [reflexivity |].
    cbn [forallb] in Hall. apply andb_prop in Hall. destruct Hall as [Hc Hcs].
    cbn [flat_map List.filter]. rewrite length_app, (IH Hcs).
    destruct c; cbn in Hc |- *; try discriminate; try reflexivity.
    apply andb_prop in Hc. destruct Hc as [_ Hlen].
    apply Nat.eqb_eq in Hlen. rewrite Hlen. reflexivity.
  - exists n. split; [reflexivity |].
    apply (loop_monotone host client collection_name vector_field_name
             feature_extractor ds 0 s). rewrite Hloop. reflexivity.
Qed.

(** X8. The only requests [insert_data] sends to the store are inserts of
    exactly one row into the collection it was given: it never lists, drops
    or creates a collection and never writes to another collection, whether
    the run ends normally or not. *)
Theorem ingestion_only_inserts ds s :
  forallb (is_ingestion_call collection_name) (trace (ingest ds s)) = true /\
  count_calls is_store_call (trace (ingest ds s)) =
    count_calls is_insert_call (trace (ingest ds s)) /\
  dropped (trace (ingest ds s)) = [] /\
  created (trace (ingest ds s)) = [].
Proof.
  assert (Hall : forallb (is_ingestion_call collection_name) (trace (ingest ds s))
                 = true).
  { rewrite insert_data_unfold.
    destruct (loop_shape ds 0 s) as (Hall & _).
    destruct (loop ds 0 s) as [[cs s'] [e | n]] eqn:Hloop.
    - rewrite (bind_inl _ _ _ _ _ _ Hloop). exact Hall.
    - rewrite (bind_inr _ _ _ _ _ _ Hloop). cbn [trace fst snd local] in *.
      rewrite forallb_app, Hall. reflexivity. }
  split; [exact Hall |].
  revert Hall. generalize (trace (ingest ds s)). intros cs.
  induction cs as [| c cs IH]; [intros _; repeat split |].
  cbn [forallb]. intros Hc. apply andb_prop in Hc. destruct Hc as [Hc Hcs].
  destruct (IH Hcs) as (Hcount & Hdrop & Hcreate).
  unfold count_calls, dropped, created in *.
  cbn [List.filter flat_map]. rewrite Hdrop, Hcreate.
  destruct c; cbn in Hc |- *; try discriminate; repeat split; auto.
Qed.

End LoopShape.

(** ** Counting, for any client *)

Section LoopCounts.

Context {Image Embedding Store : Type}.
Variable host : Host Image Embedding Store.
Variable client : MilvusClient Embedding Store.
Variables collection_name vector_field_name : string.
Variable feature_extractor : MultimodalFeatureExtractor Image Embedding.

Abbreviation loop := (insert_data_loop host client collection_name
                    vector_field_name feature_extractor).
Abbreviation ingest ds := (insert_data host ds client collection_name
                    vector_field_name feature_extractor).
Abbreviation the_row x embeddings :=
  (row_of vector_field_name x (best_caption x) embeddings).
Abbreviation answered := (acknowledged host client collection_name
                    vector_field_name feature_extractor).

Lemma sum_positive_cons ack acks :
  sum_positive (ack :: acks) = (if 0 <? ack then ack else 0) + sum_positive acks.
Proof. reflexivity. Qed.

Lemma sum_positive_nonneg acks : 0 <= sum_positive acks.
Proof.
  induction acks as [| ack acks IH]; [cbn; lia |].
  rewrite sum_positive_cons.
  destruct (0 <? ack) eqn:Hack; [apply Z.ltb_lt in Hack |]; lia.
Qed.

Lemma sum_positive_at_most_length acks :
  Forall (fun ack => ack <= 1) acks -> sum_positive acks <= Z.of_nat (length acks).
Proof.
  induction 1 as [| ack acks Hack _ IH]; [cbn; lia |].
  rewrite sum_positive_cons. cbn [length]. destruct (0 <? ack); lia.
Qed.

Lemma loop_acknowledged ds acks c s :
  answered ds acks s ->
  result (loop ds c s) = inr (c + sum_positive acks) /\
  count_calls is_open_call (trace (loop ds c s)) = length ds /\
  length acks = length ds.
Proof.
  revert acks c s. induction ds as [| x ds IH]; intros [| ack acks] c s Hans;
    try contradiction.
  { cbn. rewrite Z.add_0_r. auto. }
  destruct Hans as (image & embeddings & s' & Hopen & Hfeat & Hins & Hrest).
  cbn [insert_data_loop].
  rewrite (bind_inr _ _ _ _ _ _
             (body_success host client collection_name vector_field_name
                feature_extractor c x s image embeddings ack s' Hopen Hfeat Hins)).
  destruct (IH acks (if 0 <? ack then c + ack else c) s' Hrest)
    as (Hres & Hcount & Hlen).
  cbn [trace result fst snd]. rewrite Hres, count_calls_app, Hcount.
  rewrite sum_positive_cons. cbn [length].
  split; [f_equal; destruct (0 <? ack); lia |].
  split; [cbn; lia | lia].
Qed.

(** X9. When every item is loaded, embedded and answered by the store, the
    count reached and logged by [insert_data] is the sum of the
    acknowledged counts that are above zero; the others are left out. *)
Theorem logged_count_is_sum_of_positive_acks ds acks s :
  answered ds acks s ->
  result (loop ds 0 s) = inr (sum_positive acks) /\
  result (ingest ds s) = inr tt /\
  logged_inserted_count (trace (ingest ds s)) = Some (sum_positive acks).
Proof.
  intros Hans.
  destruct (loop_acknowledged ds acks 0 s Hans) as (Hres & _).
  rewrite Z.add_0_l in Hres. split; [exact Hres |].
  rewrite insert_data_unfold.
  destruct (loop ds 0 s) as [[cs s'] r] eqn:Hloop. cbn in Hres. subst r.
  rewrite (bind_inr _ _ _ _ _ _ Hloop). cbn [trace result fst snd local].
  rewrite logged_inserted_count_last. auto.
Qed.

(** X10. When the store acknowledges at most one record per insert, the
    count reached lies between 0 and the number of items gone through. *)
Theorem inserted_at_most_attempted ds acks s :
  answered ds acks s ->
  Forall (fun ack => ack <= 1) acks ->
  exists n,
    result (loop ds 0 s) = inr n /\
    0 <= n /\
    n <= attempted_count (trace (loop ds 0 s)) /\
    attempted_count (trace (loop ds 0 s)) = Z.of_nat (length ds).
Proof.
  intros Hans Hone.
  destruct (loop_acknowledged ds acks 0 s Hans) as (Hres & Hcount & Hlen).
  exists (sum_positive acks). rewrite Z.add_0_l in Hres.
  unfold attempted_count. rewrite Hcount.
  pose proof (sum_positive_nonneg acks).
  pose proof (sum_positive_at_most_length acks Hone).
  repeat split; try assumption; lia.
Qed.

(** X11. An exception raised by the store on an insert is not handled
    either: after a prefix of successful items it ends the loop at that
    item with the store as the failed insert left it, later items are not
    attempted, and [insert_data] leaves with the exception without logging a
    count. *)
Theorem insert_failure_ends_run pre bad post e s image embeddings s' :
  all_succeed host client collection_name vector_field_name feature_extractor
    pre s ->
  Image_open host (image_path bad) = inr image ->
  get_image_features image = inr embeddings ->
  client_insert client collection_name [the_row bad embeddings]
    (final_store (loop pre 0 s)) = (inl e, s') ->
  result (loop (pre ++ bad :: post) 0 s) = inl e /\
  final_store (loop (pre ++ bad :: post) 0 s) = s' /\
  attempted_count (trace (loop (pre ++ bad :: post) 0 s)) =
    Z.of_nat (length pre) + 1 /\
  count_calls is_insert_call (trace (loop (pre ++ bad :: post) 0 s)) =
    S (length pre) /\
  ingest (pre ++ bad :: post) s =
    (trace (loop (pre ++ bad :: post) 0 s), s', inl e).
Proof.
  intros Hall Hopen Hfeat Hins.
  destruct (loop_all_succeed host client collection_name vector_field_name
              feature_extractor pre 0 s Hall)
    as (cs & s1 & Hloop & Ho & _ & Hi).
  rewrite Hloop in Hins. cbn [final_store fst snd] in Hins.
  assert (Hrun : loop (pre ++ bad :: post) 0 s =
            ((cs ++ [Call_Image_open (image_path bad);
                     Call_get_image_features image;
                     Call_insert collection_name [the_row bad embeddings]])%list,
             s', inl e)).
  { rewrite loop_app, (bind_inr _ _ _ _ _ _ Hloop). cbn [insert_data_loop].
    rewrite (bind_inl _ _ _ _ _ _
               (body_insert_raises host client collection_name vector_field_name
                  feature_extractor _ bad s1 image embeddings e s' Hopen Hfeat
                  Hins)).
    reflexivity. }
  rewrite insert_data_unfold, (bind_inl _ _ _ _ _ _ Hrun), Hrun.
  unfold attempted_count. cbn [trace final_store result fst snd].
  rewrite !count_calls_app, Ho, Hi. cbn.
  repeat split; lia.
Qed.

End LoopCounts.

(** ** The row *)

Section RowFacts.

Context {Embedding : Type}.

Lemma row_of_lookup vfn x caption (embeddings : Embedding) :
  PyDict.get vfn (row_of vfn x caption embeddings) = Some (VEmb embeddings) /\
  PyDict.get "filename" (row_of vfn x caption embeddings) =
    Some (if String.eqb vfn "filename" then VEmb embeddings
          else VStr (image_path x)) /\
  PyDict.get "caption" (row_of vfn x caption embeddings) =
    Some (if String.eqb vfn "caption" then VEmb embeddings else VStr caption) /\
  NoDup (PyDict.keys (row_of vfn x caption embeddings)).
Proof.
  unfold row_of, PyDict.display. cbn [fold_left fst snd PyDict.set].
  change (String.eqb "caption" "filename") with false. cbn iota.
  cbn [PyDict.set].
  destruct (String.eqb vfn "filename") eqn:Hf.
  { apply String.eqb_eq in Hf. subst vfn. cbn.
    repeat split. rewrite !NoDup_cons, !not_elem_of_cons.
    repeat split; try discriminate; try apply not_elem_of_nil; apply NoDup_nil_2. }
  destruct (String.eqb vfn "caption") eqn:Hc.
  { apply String.eqb_eq in Hc. subst vfn. cbn.
    repeat split. rewrite !NoDup_cons, !not_elem_of_cons.
    repeat split; try discriminate; try apply not_elem_of_nil; apply NoDup_nil_2. }
  cbn [PyDict.get PyDict.keys map fst]. rewrite Hf, Hc, String.eqb_refl.
  change (String.eqb "filename" "filename") with true.
  change (String.eqb "caption" "filename") with false.
  change (String.eqb "caption" "caption") with true.
  cbn iota. repeat split.
  apply String.eqb_neq in Hf, Hc.
  rewrite !NoDup_cons, !not_elem_of_cons.
  repeat split; try congruence; try discriminate; try apply not_elem_of_nil;
    apply NoDup_nil_2.
Qed.

(** X12. Looking the row up: the vector field always holds the embedding,
    whatever its name; "filename" holds the image path and "caption" the
    caption unless the vector field took their name; no key occurs twice. *)
Theorem row_lookup vfn x caption (embeddings : Embedding) :
  PyDict.get vfn (row_of vfn x caption embeddings) = Some (VEmb embeddings) /\
  PyDict.get "filename" (row_of vfn x caption embeddings) =
    Some (if String.eqb vfn "filename" then VEmb embeddings
          else VStr (image_path x)) /\
  PyDict.get "caption" (row_of vfn x caption embeddings) =
    Some (if String.eqb vfn "caption" then VEmb embeddings else VStr caption) /\
  NoDup (PyDict.keys (row_of vfn x caption embeddings)).
Proof. apply row_of_lookup. Qed.

End RowFacts.

(** ** The rows sent *)

Section LoopRows.

Context {Image Embedding Store : Type}.
Variable host : Host Image Embedding Store.
Variable client : MilvusClient Embedding Store.
Variables collection_name vector_field_name : string.
Variable feature_extractor : MultimodalFeatureExtractor Image Embedding.

(** [row] was built from an item of [ds] and an embedding, which it holds
    under the vector field name. *)
Abbreviation built_from ds row :=
  (exists x embeddings,
      In x ds /\
      row = row_of vector_field_name x (best_caption x) embeddings /\
      PyDict.get vector_field_name row = Some (VEmb embeddings)).

Lemma loop_rows_built_from ds c s :
  Forall (fun row => built_from ds row)
    (inserted_rows
       (trace (insert_data_loop host client collection_name vector_field_name
                 feature_extractor ds c s))).
Proof.
  revert c s. induction ds as [| x ds IH]; intros c s; [constructor |].
  cbn [insert_data_loop].
  assert (Hrow : forall embeddings : Embedding,
            built_from (x :: ds)
              (row_of vector_field_name x (best_caption x) embeddings)).
  { intros embeddings. exists x, embeddings. split; [left; reflexivity |].
    split; [reflexivity |]. apply row_of_lookup. }
  destruct (body_cases host client collection_name vector_field_name
              feature_extractor c x s)
    as [(e & _ & Hb)
       | [(image & e & _ & _ & Hb)
         | [(image & embeddings & e & s' & _ & _ & _ & Hb)
           | (image & embeddings & ack & s' & _ & _ & _ & Hb)]]].
  - rewrite (bind_inl _ _ _ _ _ _ Hb). constructor.
  - rewrite (bind_inl _ _ _ _ _ _ Hb). constructor.
  - rewrite (bind_inl _ _ _ _ _ _ Hb). cbn. constructor; [apply Hrow | constructor].
  - rewrite (bind_inr _ _ _ _ _ _ Hb). cbn [trace fst snd].
    unfold inserted_rows. rewrite flat_map_app. cbn [flat_map app].
    constructor; [apply Hrow |].
    eapply Forall_impl; [apply IH |].
    intros row (y & emb & Hin & Heq & Hget). exists y, emb.
    split; [right; exact Hin | split; assumption].
Qed.

(** X18. Every row sent to the store by [insert_data] was built from an
    item of the dataset, in the form of lines 107-111, and holds an
    embedding under the vector field name; nothing else is ever inserted. *)
Theorem rows_come_from_dataset ds s :
  Forall (fun row => built_from ds row)
    (inserted_rows
       (trace (insert_data host ds client collection_name vector_field_name
                 feature_extractor s))).
Proof.
  rewrite insert_data_unfold.
  pose proof (loop_rows_built_from ds 0 s) as Hrows.
  destruct (insert_data_loop host client collection_name vector_field_name
              feature_extractor ds 0 s) as [[cs s'] [e | n]] eqn:Hloop.
  - rewrite (bind_inl _ _ _ _ _ _ Hloop). exact Hrows.
  - rewrite (bind_inr _ _ _ _ _ _ Hloop). cbn [trace fst snd local] in *.
    unfold inserted_rows in *. rewrite flat_map_app. cbn [flat_map].
    rewrite app_nil_r. exact Hrows.
Qed.

End LoopRows.

(** ** The reference server *)

Section RefServerSafety.

Context {Image : Type}.
Implicit Types st : gmap string RefServer.Collection.

Abbreviation ref_provisioning :=
  (create_collection (Image := Image) RefServer.client).

Lemma ref_create_other kw st other :
  other <> kw_collection_name kw ->
  snd (RefServer.create_collection kw st) !! other = st !! other.
Proof.
  intros Hother. unfold RefServer.create_collection.
  destruct (kw_dimension kw <=? 0); [reflexivity |].
  destruct (st !! kw_collection_name kw); [reflexivity |].
  cbn. apply lookup_insert_ne. congruence.
Qed.

Lemma ref_provisioning_present st name c vfn dim metric :
  st !! name = Some c ->
  ref_provisioning name vfn dim metric false st =
    ([Call_list_collections; Call_logger_warning skip_warning (ArgStr name)],
     st, inr tt) /\
  ref_provisioning name vfn dim metric true st =
    ([Call_list_collections; Call_drop_collection name;
      Call_logger_info "Collection %s dropped." (ArgStr name);
      Call_create_collection (kwargs name vfn dim metric)],
     snd (RefServer.create_collection (kwargs name vfn dim metric) (delete name st)),
     fst (RefServer.create_collection (kwargs name vfn dim metric) (delete name st))).
Proof.
  intros Hc. split.
  - apply (provision_skip RefServer.client name vfn dim metric st
             (map fst (map_to_list st)) st eq_refl (ref_listed_present st name c Hc)).
  - apply (provision_replace RefServer.client name vfn dim metric st
             (map fst (map_to_list st)) st (delete name st) eq_refl
             (ref_listed_present st name c Hc) eq_refl).
Qed.

Lemma ref_provisioning_absent st name vfn dim metric del :
  st !! name = None ->
  ref_provisioning name vfn dim metric del st =
    ([Call_list_collections; Call_create_collection (kwargs name vfn dim metric)],
     snd (RefServer.create_collection (kwargs name vfn dim metric) st),
     fst (RefServer.create_collection (kwargs name vfn dim metric) st)).
Proof.
  intros Hnone.
  apply (provision_absent RefServer.client name vfn dim metric del st
           (map fst (map_to_list st)) st eq_refl (ref_listed_absent st name Hnone)).
Qed.

(** X13. Provisioning a name leaves every other collection of the store as
    it was, on every path, failed creation included. *)
Theorem provisioning_keeps_other_collections st name vfn dim metric del other :
  other <> name ->
  final_store (ref_provisioning name vfn dim metric del st) !! other = st !! other.
Proof.
  intros Hother. destruct (st !! name) as [c |] eqn:Hname.
  - destruct (ref_provisioning_present st name c vfn dim metric Hname)
      as [Hskip Hreplace].
    destruct del; [rewrite Hreplace | rewrite Hskip]; cbn [final_store fst snd];
      [| reflexivity].
    rewrite ref_create_other by (cbn; congruence).
    apply lookup_delete_ne. congruence.
  - rewrite (ref_provisioning_absent st name vfn dim metric del Hname).
    cbn [final_store fst snd]. apply ref_create_other. cbn. congruence.
Qed.

(** X14. Without the flag provisioning is never destructive: every
    collection of the store, the named one included, is still there
    afterwards with the schema and the rows it had. *)
Theorem provisioning_without_flag_keeps_collections st name vfn dim metric k c :
  st !! k = Some c ->
  final_store (ref_provisioning name vfn dim metric false st) !! k = Some c.
Proof.
  intros Hk. destruct (st !! name) as [c' |] eqn:Hname.
  - destruct (ref_provisioning_present st name c' vfn dim metric Hname)
      as [Hskip _].
    rewrite Hskip. exact Hk.
  - rewrite (ref_provisioning_absent st name vfn dim metric false Hname).
    cbn [final_store fst snd]. rewrite ref_create_other; [exact Hk |].
    cbn. congruence.
Qed.

(** X15. When the flag is set or the name was free, a call that returns
    normally leaves under the name a collection with exactly the requested
    schema and no row. *)
Theorem successful_provisioning_is_fresh st name vfn dim metric del :
  result (ref_provisioning name vfn dim metric del st) = inr tt ->
  del = true \/ st !! name = None ->
  final_store (ref_provisioning name vfn dim metric del st) !! name =
    Some {| RefServer.schema := kwargs name vfn dim metric; RefServer.rows := [] |}.
Proof.
  assert (Hcreate : forall st0,
            st0 !! name = None ->
            fst (RefServer.create_collection (kwargs name vfn dim metric) st0) = inr tt ->
            snd (RefServer.create_collection (kwargs name vfn dim metric) st0) !! name =
              Some {| RefServer.schema := kwargs name vfn dim metric;
                      RefServer.rows := [] |}).
  { intros st0 Hfree. unfold RefServer.create_collection.
    cbn [kwargs kw_dimension kw_collection_name].
    destruct (dim <=? 0); [discriminate |]. rewrite Hfree. cbn. intros _.
    apply lookup_insert_eq. }
  intros Hres Hcase. destruct (st !! name) as [c |] eqn:Hname.
  - destruct Hcase as [-> | Hnone]; [| discriminate].
    destruct (ref_provisioning_present st name c vfn dim metric Hname)
      as [_ Hreplace].
    rewrite Hreplace in Hres |- *. cbn [final_store result fst snd] in Hres |- *.
    apply Hcreate; [apply lookup_delete_eq | exact Hres].
  - rewrite (ref_provisioning_absent st name vfn dim metric del Hname) in Hres |- *.
    cbn [final_store result fst snd] in Hres |- *.
    apply Hcreate; assumption.
Qed.

End RefServerSafety.

(** ** Ingestion into the reference server *)

Section RefIngestion.

Context {Image : Type}.
Variable host : Host Image (list Z) (gmap string RefServer.Collection).
Variable feature_extractor : MultimodalFeatureExtractor Image (list Z).
Variables collection_name vector_field_name : string.
Implicit Types st : gmap string RefServer.Collection.

Abbreviation ref_loop := (insert_data_loop host RefServer.client collection_name
                        vector_field_name feature_extractor).
Abbreviation ref_ingest ds := (insert_data host ds RefServer.client collection_name
                        vector_field_name feature_extractor).

Lemma only_appends_refl st : only_appends st st.
Proof.
  intros k. destruct (st !! k) as [[sch rws] |]; [| reflexivity].
  exists []. cbn. rewrite app_nil_r. reflexivity.
Qed.

Lemma only_appends_trans st1 st2 st3 :
  only_appends st1 st2 -> only_appends st2 st3 -> only_appends st1 st3.
Proof.
  intros H12 H23 k. specialize (H12 k). specialize (H23 k).
  destruct (st1 !! k) as [c |].
  - destruct H12 as (extra & H12). rewrite H12 in H23.
    destruct H23 as (extra' & H23). cbn in H23.
    exists (extra ++ extra'). rewrite app_assoc. exact H23.
  - rewrite H12 in H23. exact H23.
Qed.

Lemma ref_insert_only_appends name data st :
  only_appends st (snd (RefServer.insert name data st)).
Proof.
  unfold RefServer.insert.
  destruct (st !! name) as [c |] eqn:Hname; [| apply only_appends_refl].
  destruct (forallb (RefServer.row_fits (RefServer.schema c)) data);
    [| apply only_appends_refl].
  cbn [snd]. intros k. destruct (decide (k = name)) as [-> | Hk].
  - rewrite Hname, lookup_insert_eq. exists data. reflexivity.
  - rewrite lookup_insert_ne by congruence.
    destruct (st !! k) as [[sch rws] |] eqn:Hlook; [| reflexivity].
    exists []. rewrite app_nil_r. reflexivity.
Qed.

Lemma ref_loop_only_appends ds c st :
  only_appends st (final_store (ref_loop ds c st)).
Proof.
  revert c st. induction ds as [| x ds IH]; intros c st;
    [apply only_appends_refl |].
  cbn [insert_data_loop].
  destruct (body_cases host RefServer.client collection_name vector_field_name
              feature_extractor c x st)
    as [(e & _ & Hb)
       | [(image & e & _ & _ & Hb)
         | [(image & embeddings & e & s' & _ & _ & Hins & Hb)
           | (image & embeddings & ack & s' & _ & _ & Hins & Hb)]]].
  - rewrite (bind_inl _ _ _ _ _ _ Hb). apply only_appends_refl.
  - rewrite (bind_inl _ _ _ _ _ _ Hb). apply only_appends_refl.
  - rewrite (bind_inl _ _ _ _ _ _ Hb). cbn [final_store fst snd].
    replace s' with (snd (RefServer.insert collection_name
                            [row_of vector_field_name x (best_caption x) embeddings]
                            st))
      by (cbn [client_insert RefServer.client] in Hins; rewrite Hins; reflexivity).
    apply ref_insert_only_appends.
  - rewrite (bind_inr _ _ _ _ _ _ Hb). cbn [final_store fst snd].
    apply only_appends_trans with s'; [| apply IH].
    replace s' with (snd (RefServer.insert collection_name
                            [row_of vector_field_name x (best_caption x) embeddings]
                            st))
      by (cbn [client_insert RefServer.client] in Hins; rewrite Hins; reflexivity).
    apply ref_insert_only_appends.
Qed.

Lemma ref_ingest_final_store ds st :
  final_store (ref_ingest ds st) = final_store (ref_loop ds 0 st).
Proof.
  rewrite insert_data_unfold.
  destruct (ref_loop ds 0 st) as [[cs s'] [e | n]] eqn:Hloop.
  - rewrite (bind_inl _ _ _ _ _ _ Hloop). reflexivity.
  - rewrite (bind_inr _ _ _ _ _ _ Hloop). reflexivity.
Qed.

(** X16. Whatever the dataset and however the run ends, ingestion leaves
    the store with the same collections, each with the schema it had, and
    with the rows it had still in front: rows are only ever added at the
    end, nothing is removed, rewritten or created. *)
Theorem ingestion_only_appends ds st :
  only_appends st (final_store (ref_ingest ds st)).
Proof. rewrite ref_ingest_final_store. apply ref_loop_only_appends. Qed.

Lemma ref_insert_fitting st c x e :
  st !! collection_name = Some c ->
  kw_vector_field_name (RefServer.schema c) = vector_field_name ->
  Z.of_nat (length e) = kw_dimension (RefServer.schema c) ->
  RefServer.insert collection_name
    [row_of vector_field_name x (best_caption x) e] st =
    (inr 1,
     <[collection_name :=
         {| RefServer.schema := RefServer.schema c;
            RefServer.rows :=
              RefServer.rows c ++ [row_of vector_field_name x (best_caption x) e] |}]>
       st).
Proof.
  intros Hc Hvfn Hdim. unfold RefServer.insert. rewrite Hc.
  cbn [forallb]. unfold RefServer.row_fits. rewrite Hvfn.
  destruct (row_of_lookup vector_field_name x (best_caption x) e) as (Hget & _).
  rewrite Hget, Hdim, Z.eqb_refl. reflexivity.
Qed.

Lemma ref_loop_appends ds : forall embeddings n st c,
  st !! collection_name = Some c ->
  kw_vector_field_name (RefServer.schema c) = vector_field_name ->
  embedded_as feature_extractor (Image_open host)
    (kw_dimension (RefServer.schema c)) ds embeddings ->
  result (ref_loop ds n st) = inr (n + Z.of_nat (length ds)) /\
  final_store (ref_loop ds n st) !! collection_name =
    Some {| RefServer.schema := RefServer.schema c;
            RefServer.rows :=
              RefServer.rows c ++ rows_of vector_field_name ds embeddings |} /\
  inserted_rows (trace (ref_loop ds n st)) =
    rows_of vector_field_name ds embeddings.
Proof.
  induction ds as [| x ds IH]; intros [| e es] n st c Hc Hvfn Hemb;
    try contradiction.
  { cbn. rewrite Z.add_0_r, app_nil_r, Hc. destruct c. auto. }
  destruct Hemb as ((image & Hopen & Hfeat) & Hdim & Hrest).
  cbn [insert_data_loop rows_of].
  rewrite (bind_inr _ _ _ _ _ _
             (body_success host RefServer.client collection_name vector_field_name
                feature_extractor n x st image e 1 _ Hopen Hfeat
                (ref_insert_fitting st c x e Hc Hvfn Hdim))).
  change (if 0 <? 1 then n + 1 else n) with (n + 1).
  set (c1 := {| RefServer.schema := RefServer.schema c;
                RefServer.rows :=
                  RefServer.rows c ++
                  [row_of vector_field_name x (best_caption x) e] |}).
  destruct (IH es (n + 1) (<[collection_name := c1]> st) c1
              (lookup_insert_eq _ _ _) Hvfn Hrest) as (Hres & Hstore & Hrows).
  cbn [trace final_store result fst snd]. rewrite Hres, Hstore.
  unfold inserted_rows in *. rewrite flat_map_app, Hrows.
  cbn [RefServer.schema RefServer.rows c1 length flat_map app].
  rewrite <- app_assoc. cbn [app].
  repeat split. f_equal. lia.
Qed.

(** X17. End to end: when the collection exists with the loop's vector
    field as its vector field and every item is loaded and embedded into a
    vector of the collection's dimension, the run ends normally, logs the
    number of items, and the collection holds its former rows followed by
    one row per item, in the order of the dataset. *)
Theorem ingestion_appends_dataset_in_order ds embeddings st c :
  st !! collection_name = Some c ->
  kw_vector_field_name (RefServer.schema c) = vector_field_name ->
  embedded_as feature_extractor (Image_open host)
    (kw_dimension (RefServer.schema c)) ds embeddings ->
  result (ref_ingest ds st) = inr tt /\
  logged_inserted_count (trace (ref_ingest ds st)) = Some (Z.of_nat (length ds)) /\
  final_store (ref_ingest ds st) !! collection_name =
    Some {| RefServer.schema := RefServer.schema c;
            RefServer.rows :=
              RefServer.rows c ++ rows_of vector_field_name ds embeddings |} /\
  length (rows_of vector_field_name ds embeddings) = length ds.
Proof.
  intros Hc Hvfn Hemb.
  destruct (ref_loop_appends ds embeddings 0 st c Hc Hvfn Hemb)
    as (Hres & Hstore & _).
  rewrite ref_ingest_final_store. rewrite Z.add_0_l in Hres.
  rewrite insert_data_unfold.
  destruct (ref_loop ds 0 st) as [[cs s'] r] eqn:Hloop. cbn in Hres. subst r.
  rewrite (bind_inr _ _ _ _ _ _ Hloop). cbn [trace result fst snd local].
  rewrite logged_inserted_count_last.
  repeat split; try exact Hstore.
  clear - Hemb. revert embeddings Hemb.
  induction ds as [| x ds IH]; intros [| e es] Hemb; try contradiction;
    [reflexivity |].
  destruct Hemb as (_ & _ & Hrest). cbn. f_equal. apply IH, Hrest.
Qed.

End RefIngestion.

(** ** The whole script, for any host *)

Section MainOrder.

Context {Image Embedding Store : Type}.
Variable defaults : Defaults.
Variable host : Host Image Embedding Store.

Abbreviation parsed cmd s args :=
  (parse_args (Image := Image) (Embedding := Embedding) defaults cmd s =
     ([], s, inr args)).

(** The provisioning call made by [main]. *)
Abbreviation provisioning_of args client :=
  (create_collection (Image := Image) client (collection_name args)
     (DEFAULT_VECTOR_FIELD_NAME defaults) (dimension args) (metric_type args)
     (delete_existing_collection args)).

(** The ingestion call made by [main]. *)
Abbreviation ingestion_of args client extractor ds :=
  (insert_data host ds client (collection_name args)
     (DEFAULT_VECTOR_FIELD_NAME defaults) extractor).

(** What [main] has done when provisioning starts. *)
Abbreviation setup_calls args :=
  [Call_logger_info (Image := Image) (Embedding := Embedding)
     "Running insert operation with arguments: %s" ArgNone;
   Call_MilvusClient (uri args) (db_name args);
   Call_JinaCLIPFeatureExtractor].

Lemma main_provisioning_raises cmd args client extractor s s1 e :
  parsed cmd s args ->
  MilvusClient_new host (uri args) (db_name args) s = (inr client, s1) ->
  JinaCLIPFeatureExtractor_new host = inr extractor ->
  result (provisioning_of args client s1) = inl e ->
  main defaults host cmd s =
    ((setup_calls args ++ trace (provisioning_of args client s1))%list,
     final_store (provisioning_of args client s1), inl e).
Proof.
  intros Hargs Hclient Hextractor Hprov.
  destruct (provisioning_of args client s1) as [[cs s2] r] eqn:Hrun.
  cbn in Hprov. subst r.
  unfold main, bind, local, remote.
  rewrite Hargs, Hclient, Hextractor, Hrun. reflexivity.
Qed.

Lemma main_after_provisioning cmd args client extractor s s1 k :
  parsed cmd s args ->
  MilvusClient_new host (uri args) (db_name args) s = (inr client, s1) ->
  JinaCLIPFeatureExtractor_new host = inr extractor ->
  result (provisioning_of args client s1) = inr tt ->
  (data_type args = Some "flickr8k" /\
   k = local (Store := Store) (Call_Dataset "flickr8k" (data_path args))
         (FlickrDataset_new host (data_path args))) \/
  (data_type args = Some "flickr30k" /\
   k = local (Call_Dataset "flickr30k" (data_path args))
         (Flickr30kDataset_new host (data_path args))) ->
  main defaults host cmd s =
    ((setup_calls args ++ trace (provisioning_of args client s1) ++
      trace (bind k (fun dataset => ingestion_of args client extractor dataset)
               (final_store (provisioning_of args client s1))))%list,
     final_store (bind k (fun dataset => ingestion_of args client extractor dataset)
                    (final_store (provisioning_of args client s1))),
     result (bind k (fun dataset => ingestion_of args client extractor dataset)
               (final_store (provisioning_of args client s1)))).
Proof.
  intros Hargs Hclient Hextractor Hprov Htype.
  destruct (provisioning_of args client s1) as [[cs s2] r] eqn:Hrun.
  cbn in Hprov. subst r. cbn [trace final_store result fst snd].
  unfold main.
  rewrite (bind_inr _ _ _ _ _ _ Hargs). cbn [trace final_store result fst snd].
  erewrite bind_inr by reflexivity. cbn [trace final_store result fst snd].
  erewrite bind_inr by (unfold remote; rewrite Hclient; reflexivity).
  cbn [trace final_store result fst snd].
  erewrite bind_inr by (unfold local; rewrite Hextractor; reflexivity).
  cbn [trace final_store result fst snd].
  rewrite (bind_inr _ _ _ _ _ _ Hrun). cbn [trace final_store result fst snd].
  destruct Htype as [[-> ->] | [-> ->]]; reflexivity.
Qed.


(** X20. When the command line is accepted, the options given on it are
    the ones used and the others take their defaults, and the first thing
    [main] does after its opening log line is to connect to that URI and
    database. *)
Theorem main_connects_to_requested_endpoint cmd args s :
  parsed cmd s args ->
  uri args = from_option (opt_uri cmd) (MILVUS_URI defaults) /\
  db_name args = from_option (opt_db_name cmd) (MILVUS_DB_NAME defaults) /\
  collection_name args =
    from_option (opt_collection_name cmd) (MILVUS_COLLECTION_NAME defaults) /\
  dimension args = from_option (opt_dimension cmd) (VECTOR_FIELD_DIM defaults) /\
  metric_type args = from_option (opt_metric_type cmd) (DEFAULT_METRIC defaults) /\
  delete_existing_collection args = opt_delete_existing_collection cmd /\
  data_type args = opt_data_type cmd /\
  (data_type args = None \/ data_type args = Some "flickr8k" \/
   data_type args = Some "flickr30k") /\
  exists rest,
    trace (main defaults host cmd s) =
      Call_logger_info "Running insert operation with arguments: %s" ArgNone
        :: Call_MilvusClient (uri args) (db_name args) :: rest.
Proof.
  intros Hargs.
  assert (Hfields :
    uri args = from_option (opt_uri cmd) (MILVUS_URI defaults) /\
    db_name args = from_option (opt_db_name cmd) (MILVUS_DB_NAME defaults) /\
    collection_name args =
      from_option (opt_collection_name cmd) (MILVUS_COLLECTION_NAME defaults) /\
    dimension args = from_option (opt_dimension cmd) (VECTOR_FIELD_DIM defaults) /\
    metric_type args = from_option (opt_metric_type cmd) (DEFAULT_METRIC defaults) /\
    delete_existing_collection args = opt_delete_existing_collection cmd /\
    data_type args = opt_data_type cmd /\
    (data_type args = None \/ data_type args = Some "flickr8k" \/
     data_type args = Some "flickr30k")).
  { revert Hargs. unfold parse_args.
    destruct (opt_data_path cmd) as [path |]; [| discriminate].
    destruct (opt_data_type cmd) as [t |] eqn:Ht.
    - unfold py_in, data_type_choices. cbn [existsb].
      destruct (String.eqb t "flickr8k") eqn:H8.
      + apply String.eqb_eq in H8. subst t. cbn. intros [= <-]. cbn.
        repeat split; auto.
      + destruct (String.eqb t "flickr30k") eqn:H30; [| discriminate].
        apply String.eqb_eq in H30. subst t. cbn. intros [= <-]. cbn.
        repeat split; auto.
    - cbn. intros [= <-]. cbn. repeat split; auto. }
  repeat (split; [apply Hfields |]).
  unfold main. rewrite (bind_inr _ _ _ _ _ _ Hargs).
  cbn [trace final_store result fst snd].
  erewrite bind_inr by reflexivity. cbn [trace final_store result fst snd].
  destruct (MilvusClient_new host (uri args) (db_name args) s)
    as [[e | client] s1] eqn:Hclient.
  - erewrite bind_inl by (unfold remote; rewrite Hclient; reflexivity).
    eexists. reflexivity.
  - erewrite bind_inr by (unfold remote; rewrite Hclient; reflexivity).
    eexists. reflexivity.
Qed.

(** X21. When the connection or the loading of the extractor raises, the
    script ends there with that exception: the store's collections are
    never listed, nothing is dropped, created or inserted and the dataset
    is not read. *)
Theorem setup_failure_stops_before_provisioning cmd args s s1 e :
  parsed cmd s args ->
  MilvusClient_new host (uri args) (db_name args) s = (inl e, s1) \/
  (exists client,
      MilvusClient_new host (uri args) (db_name args) s = (inr client, s1) /\
      JinaCLIPFeatureExtractor_new host = inl e) ->
  result (main defaults host cmd s) = inl e /\
  final_store (main defaults host cmd s) = s1 /\
  count_calls is_list_call (trace (main defaults host cmd s)) = 0%nat /\
  dropped (trace (main defaults host cmd s)) = [] /\
  created (trace (main defaults host cmd s)) = [] /\
  inserted_rows (trace (main defaults host cmd s)) = [] /\
  count_calls is_dataset_call (trace (main defaults host cmd s)) = 0%nat.
Proof.
  intros Hargs Hfail.
  unfold main. rewrite (bind_inr _ _ _ _ _ _ Hargs).
  cbn [trace final_store result fst snd].
  erewrite bind_inr by reflexivity. cbn [trace final_store result fst snd].
  destruct Hfail as [Hclient | (client & Hclient & Hextractor)].
  - erewrite bind_inl by (unfold remote; rewrite Hclient; reflexivity).
    repeat split.
  - erewrite bind_inr by (unfold remote; rewrite Hclient; reflexivity).
    cbn [trace final_store result fst snd].
    erewrite bind_inl by (unfold local; rewrite Hextractor; reflexivity).
    repeat split.
Qed.

(** X22. When provisioning raises, [main] ends with that exception right
    after the provisioning calls: the dataset is not read, no image is
    opened and nothing is inserted. *)
Theorem failed_provisioning_stops_main cmd args client extractor s s1 e :
  parsed cmd s args ->
  MilvusClient_new host (uri args) (db_name args) s = (inr client, s1) ->
  JinaCLIPFeatureExtractor_new host = inr extractor ->
  result (provisioning_of args client s1) = inl e ->
  main defaults host cmd s =
    ((setup_calls args ++ trace (provisioning_of args client s1))%list,
     final_store (provisioning_of args client s1), inl e) /\
  count_calls is_dataset_call (trace (main defaults host cmd s)) = 0%nat /\
  count_calls is_open_call (trace (main defaults host cmd s)) = 0%nat /\
  inserted_rows (trace (main defaults host cmd s)) = [].
Proof.
  intros Hargs Hclient Hextractor Hprov.
  rewrite (main_provisioning_raises cmd args client extractor s s1 e Hargs Hclient
             Hextractor Hprov).
  split; [reflexivity |]. cbn [trace fst snd].
  destruct (provisioning_makes_no_ingestion_call (Image := Image) client
              (collection_name args) (DEFAULT_VECTOR_FIELD_NAME defaults)
              (dimension args) (metric_type args)
              (delete_existing_collection args) s1)
    as (Hrows & Hdata & Hopen & _).
  rewrite !count_calls_app, Hdata, Hopen. unfold inserted_rows in *.
  rewrite flat_map_app, Hrows. repeat split.
Qed.

(** X23. When provisioning returns normally, on any of its paths, and the
    dataset type is one of the two choices, [main] reads the dataset with
    the matching reader and then runs [insert_data] on it, starting from the
    store as provisioning left it, with the collection name and the vector
    field name that provisioning was given.  The result of the script is the
    result of that ingestion. *)
Theorem main_ingests_after_provisioning cmd args client extractor s s1 kind ds :
  parsed cmd s args ->
  MilvusClient_new host (uri args) (db_name args) s = (inr client, s1) ->
  JinaCLIPFeatureExtractor_new host = inr extractor ->
  result (provisioning_of args client s1) = inr tt ->
  (kind = "flickr8k" /\ data_type args = Some "flickr8k" /\
   FlickrDataset_new host (data_path args) = inr ds) \/
  (kind = "flickr30k" /\ data_type args = Some "flickr30k" /\
   Flickr30kDataset_new host (data_path args) = inr ds) ->
  main defaults host cmd s =
    ((setup_calls args ++ trace (provisioning_of args client s1) ++
      [Call_Dataset kind (data_path args)] ++
      trace (ingestion_of args client extractor ds
               (final_store (provisioning_of args client s1))))%list,
     final_store (ingestion_of args client extractor ds
                    (final_store (provisioning_of args client s1))),
     result (ingestion_of args client extractor ds
               (final_store (provisioning_of args client s1)))).
Proof.
  intros Hargs Hclient Hextractor Hprov Htype.
  destruct Htype as [(-> & Htype & Hds) | (-> & Htype & Hds)].
  - rewrite (main_after_provisioning cmd args client extractor s s1 _ Hargs Hclient
               Hextractor Hprov (or_introl (conj Htype eq_refl))).
    erewrite bind_inr by (unfold local; rewrite Hds; reflexivity).
    reflexivity.
  - rewrite (main_after_provisioning cmd args client extractor s s1 _ Hargs Hclient
               Hextractor Hprov (or_intror (conj Htype eq_refl))).
    erewrite bind_inr by (unfold local; rewrite Hds; reflexivity).
    reflexivity.
Qed.

(** X24. When the dataset reader raises, [main] ends with that exception
    after provisioning has been carried out: the store is as provisioning
    left it and no image is opened and nothing is inserted. *)
Theorem reader_failure_stops_before_ingestion cmd args client extractor s s1 kind e :
  parsed cmd s args ->
  MilvusClient_new host (uri args) (db_name args) s = (inr client, s1) ->
  JinaCLIPFeatureExtractor_new host = inr extractor ->
  result (provisioning_of args client s1) = inr tt ->
  (kind = "flickr8k" /\ data_type args = Some "flickr8k" /\
   FlickrDataset_new host (data_path args) = inl e) \/
  (kind = "flickr30k" /\ data_type args = Some "flickr30k" /\
   Flickr30kDataset_new host (data_path args) = inl e) ->
  main defaults host cmd s =
    ((setup_calls args ++ trace (provisioning_of args client s1) ++
      [Call_Dataset kind (data_path args)])%list,
     final_store (provisioning_of args client s1), inl e) /\
  count_calls is_open_call (trace (main defaults host cmd s)) = 0%nat /\
  inserted_rows (trace (main defaults host cmd s)) = [].
Proof.
  intros Hargs Hclient Hextractor Hprov Htype.
  assert (Hmain : main defaults host cmd s =
            ((setup_calls args ++ trace (provisioning_of args client s1) ++
              [Call_Dataset kind (data_path args)])%list,
             final_store (provisioning_of args client s1), inl e)).
  { destruct Htype as [(-> & Htype & Hds) | (-> & Htype & Hds)].
    - rewrite (main_after_provisioning cmd args client extractor s s1 _ Hargs
                 Hclient Hextractor Hprov (or_introl (conj Htype eq_refl))).
      erewrite bind_inl by (unfold local; rewrite Hds; reflexivity).
      reflexivity.
    - rewrite (main_after_provisioning cmd args client extractor s s1 _ Hargs
                 Hclient Hextractor Hprov (or_intror (conj Htype eq_refl))).
      erewrite bind_inl by (unfold local; rewrite Hds; reflexivity).
      reflexivity. }
  rewrite Hmain. split; [reflexivity |]. cbn [trace fst snd].
  destruct (provisioning_makes_no_ingestion_call (Image := Image) client
              (collection_name args) (DEFAULT_VECTOR_FIELD_NAME defaults)
              (dimension args) (metric_type args)
              (delete_existing_collection args) s1)
    as (Hrows & _ & Hopen & _).
  rewrite !count_calls_app, Hopen. unfold inserted_rows in *.
  rewrite !flat_map_app, Hrows. repeat split.
Qed.

End MainOrder.

(** ** The further properties on the sample installation *)

Section MoreSamples.

Import Fixture Faults.

Abbreviation sample_args type dim replace :=
  {| data_path := "/data/flickr"; data_type := type;
     uri := "http://localhost:19530"; collection_name := "images";
     db_name := "default"; dimension := dim; metric_type := "COSINE";
     delete_existing_collection := replace |}.

Lemma provisioning_error_propagates_witness :
  result (create_collection (Image := Image) ReadOnlyServer.client "images" "vector"
            4 "COSINE" true ["images"]) =
    inl (MilvusException "permission denied") /\
  created (trace (create_collection (Image := Image) ReadOnlyServer.client "images"
                    "vector" 4 "COSINE" true ["images"])) = [].
Proof.
  destruct (provisioning_error_propagates (Image := Image) ReadOnlyServer.client
              "images" "vector" 4 "COSINE" true ["images"]
              (MilvusException "permission denied") ["images"]
              (or_intror
                 (ex_intro _ ["images"]
                    (ex_intro _ ["images"]
                       (conj eq_refl (conj eq_refl (conj eq_refl eq_refl)))))))
    as (Hres & _ & Hcreated).
  split; [exact Hres | exact Hcreated].
Defined.

Lemma failed_create_after_drop_witness :
  result (create_collection (Image := Image) RefServer.client "images" "vector" 0
            "COSINE" true populated) = inl (MilvusException "invalid dimension") /\
  final_store (create_collection (Image := Image) RefServer.client "images" "vector"
                 0 "COSINE" true populated) = empty_store.
Proof.
  destruct (failed_create_after_drop (Image := Image) RefServer.client
              "images" "vector" 0 "COSINE" populated ["images"] populated
              empty_store (MilvusException "invalid dimension") empty_store
              ltac:(vm_compute; reflexivity) eq_refl
              ltac:(vm_compute; reflexivity) ltac:(vm_compute; reflexivity))
    as (Hres & Hstore & _).
  split; [exact Hres | exact Hstore].
Defined.

Lemma normal_end_covers_dataset_witness :
  result (insert_data ref_host [dog; cat] RefServer.client "images" "vector"
            extractor compatible) = inr tt /\
  count_calls is_insert_call
    (trace (insert_data ref_host [dog; cat] RefServer.client "images" "vector"
              extractor compatible)) = 2%nat.
Proof.
  assert (Hres : result (insert_data ref_host [dog; cat] RefServer.client "images"
                           "vector" extractor compatible) = inr tt)
    by (vm_compute; reflexivity).
  split; [exact Hres |].
  destruct (normal_end_covers_dataset ref_host RefServer.client "images" "vector"
              extractor [dog; cat] compatible Hres) as (_ & _ & Hins & _).
  exact Hins.
Defined.

Lemma sample_acknowledged :
  acknowledged scripted_host ScriptedServer.client "images" "vector" extractor
    [dog; cat] [3; -2] [3; -2].
Proof.
  cbn [acknowledged].
  do 3 eexists. do 3 (split; [reflexivity |]).
  do 3 eexists. do 3 (split; [reflexivity |]).
  exact I.
Defined.

Lemma logged_count_is_sum_of_positive_acks_witness :
  acknowledged scripted_host ScriptedServer.client "images" "vector" extractor
    [dog; cat] [3; -2] [3; -2] /\
  logged_inserted_count
    (trace (insert_data scripted_host [dog; cat] ScriptedServer.client "images"
              "vector" extractor [3; -2])) = Some 3.
Proof.
  split; [exact sample_acknowledged |].
  destruct (logged_count_is_sum_of_positive_acks scripted_host ScriptedServer.client
              "images" "vector" extractor [dog; cat] [3; -2] [3; -2]
              sample_acknowledged) as (_ & _ & Hlog).
  exact Hlog.
Defined.

Lemma inserted_at_most_attempted_witness :
  exists n,
    result (insert_data_loop scripted_host ScriptedServer.client "images" "vector"
              extractor [dog; cat] 0 [1; 0]) = inr n /\
    0 <= n /\ n <= 2.
Proof.
  assert (Hans : acknowledged scripted_host ScriptedServer.client "images" "vector"
                   extractor [dog; cat] [1; 0] [1; 0]).
  { cbn [acknowledged].
    do 3 eexists. do 3 (split; [reflexivity |]).
    do 3 eexists. do 3 (split; [reflexivity |]).
    exact I. }
  assert (Hone : Forall (fun ack => ack <= 1) [1; 0])
    by (repeat constructor; lia).
  destruct (inserted_at_most_attempted scripted_host ScriptedServer.client
              "images" "vector" extractor [dog; cat] [1; 0] [1; 0] Hans Hone)
    as (n & Hres & Hlow & Hhigh & Hatt).
  exists n. split; [exact Hres |]. split; [exact Hlow |].
  rewrite Hatt in Hhigh. exact Hhigh.
Defined.

Lemma insert_failure_ends_run_witness :
  result (insert_data_loop scripted_host ScriptedServer.client "images" "vector"
            extractor ([dog] ++ cat :: [dog]) 0 [1]) =
    inl (MilvusException "connection lost") /\
  attempted_count
    (trace (insert_data_loop scripted_host ScriptedServer.client "images" "vector"
              extractor ([dog] ++ cat :: [dog]) 0 [1])) = Z.of_nat (length [dog]) + 1.
Proof.
  assert (Hpre : all_succeed scripted_host ScriptedServer.client "images" "vector"
                   extractor [dog] [1]).
  { cbn [all_succeed]. do 3 eexists. do 3 (split; [reflexivity |]). exact I. }
  destruct (insert_failure_ends_run scripted_host ScriptedServer.client "images"
              "vector" extractor [dog] cat [dog]
              (MilvusException "connection lost") [1] "cat.jpg" [1; 0; 0; 0] []
              Hpre eq_refl eq_refl eq_refl)
    as (Hres & _ & Hatt & _).
  split; [exact Hres | exact Hatt].
Defined.

Lemma provisioning_keeps_other_collections_witness :
  final_store (create_collection (Image := Image) RefServer.client "captions"
                 "vector" 4 "COSINE" true populated) !! "images" =
    populated !! "images".
Proof.
  apply (provisioning_keeps_other_collections (Image := Image) populated "captions"
           "vector" 4 "COSINE" true "images").
  discriminate.
Defined.

Lemma provisioning_without_flag_keeps_collections_witness :
  final_store (create_collection (Image := Image) RefServer.client "images" "vector"
                 4 "COSINE" false populated) !! "images" =
    Some {| RefServer.schema := old_schema; RefServer.rows := [old_row] |}.
Proof.
  apply (provisioning_without_flag_keeps_collections (Image := Image) populated
           "images" "vector" 4 "COSINE" "images").
  vm_compute. reflexivity.
Defined.

Lemma successful_provisioning_is_fresh_witness :
  final_store (create_collection (Image := Image) RefServer.client "images" "vector"
                 4 "COSINE" true populated) !! "images" =
    Some {| RefServer.schema := kwargs "images" "vector" 4 "COSINE";
            RefServer.rows := [] |}.
Proof.
  apply (successful_provisioning_is_fresh (Image := Image) populated "images"
           "vector" 4 "COSINE" true).
  - vm_compute. reflexivity.
  - left. reflexivity.
Defined.

Lemma ingestion_appends_dataset_in_order_witness :
  final_store (insert_data ref_host [dog; cat] RefServer.client "images" "vector"
                 extractor compatible) !! "images" =
    Some {| RefServer.schema := kwargs "images" "vector" 4 "COSINE";
            RefServer.rows :=
              [] ++ rows_of "vector" [dog; cat] [[1; 0; 0; 0]; [1; 0; 0; 0]] |}.
Proof.
  destruct (ingestion_appends_dataset_in_order ref_host extractor "images" "vector"
              [dog; cat] [[1; 0; 0; 0]; [1; 0; 0; 0]] compatible
              {| RefServer.schema := kwargs "images" "vector" 4 "COSINE";
                 RefServer.rows := [] |}
              ltac:(vm_compute; reflexivity) eq_refl
              (conj (ex_intro _ "dog.jpg" (conj eq_refl eq_refl))
                 (conj eq_refl
                    (conj (ex_intro _ "cat.jpg" (conj eq_refl eq_refl))
                       (conj eq_refl I)))))
    as (_ & _ & Hstore & _).
  exact Hstore.
Defined.


Lemma main_connects_to_requested_endpoint_witness :
  exists rest,
    trace (main defaults ref_host (cmdline_with_dimension (Some "flickr8k") 8)
             empty_store) =
      Call_logger_info "Running insert operation with arguments: %s" ArgNone
        :: Call_MilvusClient "http://localhost:19530" "default" :: rest.
Proof.
  destruct (main_connects_to_requested_endpoint defaults ref_host
              (cmdline_with_dimension (Some "flickr8k") 8)
              (sample_args (Some "flickr8k") 8 false) empty_store eq_refl)
    as (_ & _ & _ & _ & _ & _ & _ & _ & rest & Htrace).
  exists rest. exact Htrace.
Defined.

Lemma setup_failure_stops_before_provisioning_witness :
  result (main defaults offline_host (cmdline (Some "flickr8k") true) populated) =
    inl (MilvusException "connection refused") /\
  final_store (main defaults offline_host (cmdline (Some "flickr8k") true) populated) =
    populated.
Proof.
  destruct (setup_failure_stops_before_provisioning defaults offline_host
              (cmdline (Some "flickr8k") true)
              (sample_args (Some "flickr8k") 4 true) populated populated
              (MilvusException "connection refused") eq_refl (or_introl eq_refl))
    as (Hres & Hstore & _).
  split; [exact Hres | exact Hstore].
Defined.

Lemma failed_provisioning_stops_main_witness :
  result (main defaults ref_host (cmdline_with_dimension (Some "flickr8k") 0)
            empty_store) = inl (MilvusException "invalid dimension") /\
  inserted_rows
    (trace (main defaults ref_host (cmdline_with_dimension (Some "flickr8k") 0)
              empty_store)) = [].
Proof.
  destruct (failed_provisioning_stops_main defaults ref_host
              (cmdline_with_dimension (Some "flickr8k") 0)
              (sample_args (Some "flickr8k") 0 false) RefServer.client extractor
              empty_store empty_store (MilvusException "invalid dimension")
              eq_refl eq_refl eq_refl ltac:(vm_compute; reflexivity))
    as (Hmain & _ & _ & Hrows).
  split; [rewrite Hmain; reflexivity | exact Hrows].
Defined.

Lemma main_ingests_after_provisioning_witness :
  result (main defaults ref_host (cmdline (Some "flickr30k") false) empty_store) =
    result (insert_data ref_host [dog; cat] RefServer.client "images" "vector"
              extractor
              (final_store
                 (create_collection (Image := Image) RefServer.client "images"
                    "vector" 4 "COSINE" false empty_store))).
Proof.
  rewrite (main_ingests_after_provisioning defaults ref_host
             (cmdline (Some "flickr30k") false)
             (sample_args (Some "flickr30k") 4 false) RefServer.client extractor
             empty_store empty_store "flickr30k" [dog; cat]
             eq_refl eq_refl eq_refl ltac:(vm_compute; reflexivity)
             (or_intror (conj eq_refl (conj eq_refl eq_refl)))).
  reflexivity.
Defined.

Lemma reader_failure_stops_before_ingestion_witness :
  result (main defaults no_dataset_host (cmdline (Some "flickr8k") false)
            empty_store) = inl (OSError "No such file or directory") /\
  final_store (main defaults no_dataset_host (cmdline (Some "flickr8k") false)
                 empty_store) !! "images" =
    Some {| RefServer.schema := kwargs "images" "vector" 4 "COSINE";
            RefServer.rows := [] |}.
Proof.
  destruct (reader_failure_stops_before_ingestion defaults no_dataset_host
              (cmdline (Some "flickr8k") false)
              (sample_args (Some "flickr8k") 4 false) RefServer.client extractor
              empty_store empty_store "flickr8k"
              (OSError "No such file or directory")
              eq_refl eq_refl eq_refl ltac:(vm_compute; reflexivity)
              (or_introl (conj eq_refl (conj eq_refl eq_refl))))
    as (Hmain & _).
  rewrite Hmain. split; [reflexivity | vm_compute; reflexivity].
Defined.

End MoreSamples.
